(** * Cursor undo/redo history (vs/editor/contrib/cursorUndo)

    A shallow embedding of the [CursorStateStack] class and of the
    [CursorUndoController] that drives it, in the position-pointer variant
    (src/unnamed/part_001) and in the three earlier variants whose [redo] is
    a stub (both files concatenated in
    src/src/vs/editor/contrib/cursorUndo/cursorUndo.ts, and
    src/unnamed/part_000).

    Objects are records, methods are functions from the receiver (and the
    arguments) to the updated receiver (and the returned value).  Numbers
    that index arrays are integers ([Z]); arrays are lists, with the
    out-of-range behaviour of the JavaScript primitives written out. *)

From stdpp Require Import base numbers list.

Local Open Scope Z_scope.

(** ** JavaScript array primitives used by the classes *)

Module JsArray.
Section Ops.
Context {A : Type}.

(** [arr.length] *)
Definition length (arr : list A) : Z := Z.of_nat (List.length arr).

(** [arr[i]]: [None] stands for [undefined], which is what an index
    outside [0 .. length-1] reads. *)
Definition get (arr : list A) (i : Z) : option A :=
  if decide (0 <= i) then arr !! Z.to_nat i else None.

(** [arr.splice(start)] with the delete count left out: everything from
    the clamped start index to the end is removed.  A negative start
    counts from the end, a start beyond the end removes nothing. *)
Definition splice (arr : list A) (start : Z) : list A :=
  let len := length arr in
  let actualStart :=
    if decide (start < 0) then Z.max (len + start) 0 else Z.min start len in
  take (Z.to_nat actualStart) arr.

(** [arr.push(x)] *)
Definition push (arr : list A) (x : A) : list A := arr ++ [x].

(** [arr.shift()]: drops the first element, if any. *)
Definition shift (arr : list A) : list A := drop 1 arr.

(** [arr.pop()]: the array without its last element, and that element
    ([None] for [undefined] on an empty array). *)
Definition pop (arr : list A) : list A * option A :=
  (take (List.length arr - 1)%nat arr, last arr).
End Ops.
End JsArray.

(** ** Snapshots *)

(** Modelled from the spec: the [Selection] class
    (vs/editor/common/core/selection) is imported by the sources and not
    part of them.  A selection range is an anchor position and a head
    position in the document's coordinate space; [equalsSelection] is
    positional identity of both. *)
Record Position := { lineNumber : Z; column : Z }.
Record Selection := { anchor : Position; head_ : Position }.

Definition equalsPosition (a b : Position) : bool :=
  bool_decide (lineNumber a = lineNumber b) && bool_decide (column a = column b).

Definition equalsSelection (a b : Selection) : bool :=
  equalsPosition (anchor a) (anchor b) && equalsPosition (head_ a) (head_ b).

(** Modelled from the spec: [equals] of vs/base/common/arrays, imported by
    the sources and not part of them: same length and item-wise equality. *)
Fixpoint arrays_equals {A} (itemEquals : A -> A -> bool) (one other : list A) : bool :=
  match one, other with
  | [], [] => true
  | a :: one', b :: other' => itemEquals a b && arrays_equals itemEquals one' other'
  | _, _ => false
  end.

(** [class CursorState] *)
Record CursorState := { selections : list Selection }.

Definition CursorState_equals (this other : CursorState) : bool :=
  arrays_equals equalsSelection (selections this) (selections other).

(** What [undo] and [redo] hand back: [CursorState | null] by their
    signature, and [undefined] when the array is read out of range (the
    [!] of [_getCurrentState] is erased at run time). *)
Inductive returned :=
  | null
  | undefined
  | state (s : CursorState).

Definition of_read (r : option CursorState) : returned :=
  match r with
  | Some s => state s
  | None => undefined
  end.

(** ** The editor and the controller's shape *)

(** Modelled from the spec: the editor ([ICodeEditor]) is an external
    collaborator.  It offers a read of the current selections ([null], here
    [None], while no model is attached), a write that replaces them, and a
    best-effort reveal of a range; it delivers its change notifications
    synchronously to the registered listeners. *)
Record Editor := {
  getSelections : option (list Selection);
  revealed : list (option Selection)
}.

Definition hasModel (editor : Editor) : bool :=
  match getSelections editor with
  | Some _ => true
  | None => false
  end.

(** [editor.revealRangeInCenterIfOutsideViewport(range, ScrollType.Smooth)]:
    the request is logged; [None] is an [undefined] range. *)
Definition revealRangeInCenterIfOutsideViewport (editor : Editor) (range : option Selection) : Editor :=
  {| getSelections := getSelections editor; revealed := revealed editor ++ [range] |}.

(** What a call of [editor.setSelections] does, seen from the controller:
    the editor states in which a selection-changed notification reaches the
    listener before the call returns, in order, and the editor state the
    call leaves. *)
Definition write_behaviour := Editor -> list Selection -> list Editor * Editor.

(** The fields of [class CursorUndoController], for any of the stack classes. *)
Record Controller (Stack : Type) := {
  _editor : Editor;
  _isChangingState : bool;
  _cursorStateStack : Stack
}.
Arguments _editor {Stack} _.
Arguments _isChangingState {Stack} _.
Arguments _cursorStateStack {Stack} _.

(** How a method of the controller ends: it returns, or it throws (a
    [TypeError]); either way the fields are left as they then are. *)
Inductive outcome (Stack : Type) :=
  | returns (this : Controller Stack)
  | throws (this : Controller Stack).
Arguments returns {Stack} _.
Arguments throws {Stack} _.

Definition after {Stack} (o : outcome Stack) : Controller Stack :=
  match o with
  | returns this => this
  | throws this => this
  end.

Section UpdateCursorState.
Context {Stack : Type}.
(** the editor's write, and the listener the constructor registered with
    [editor.onDidChangeCursorSelection] *)
Variable setSelections : write_behaviour.
Variable onDidChangeCursorSelection : Controller Stack -> Controller Stack.

Definition with_editor (this : Controller Stack) (editor : Editor) : Controller Stack :=
  {| _editor := editor; _isChangingState := _isChangingState this;
     _cursorStateStack := _cursorStateStack this |}.

Definition with_isChangingState (this : Controller Stack) (b : bool) : Controller Stack :=
  {| _editor := _editor this; _isChangingState := b;
     _cursorStateStack := _cursorStateStack this |}.

Definition with_cursorStateStack (this : Controller Stack) (stack : Stack) : Controller Stack :=
  {| _editor := _editor this; _isChangingState := _isChangingState this;
     _cursorStateStack := stack |}.

(** the notifications delivered while [setSelections] runs *)
Definition deliver (this : Controller Stack) (fired : list Editor) : Controller Stack :=
  foldl (fun this editor => onDidChangeCursorSelection (with_editor this editor)) this fired.

(** [_updateCursorState(newState: CursorState | null)], the same text in
    part_001, part_000 and the second file of cursorUndo.ts. *)
Definition _updateCursorState (this : Controller Stack) (newState : returned) : outcome Stack :=
  match newState with
  | null =>
      (* null means the state should not change *)
      returns this
  | undefined =>
      (* the flag is set, then reading [newState.selections] throws *)
      throws (with_isChangingState this true)
  | state s =>
      (* change the selections in the editor to match the new state *)
      let this := with_isChangingState this true in
      let '(fired, editor) := setSelections (_editor this) (selections s) in
      let this := with_editor (deliver this fired) editor in
      let this := with_isChangingState this false in
      (* reveal the new primary selection if necessary *)
      returns (with_editor this
                 (revealRangeInCenterIfOutsideViewport (_editor this) (selections s !! 0%nat)))
  end.
End UpdateCursorState.

(** ** The position-pointer stack (src/unnamed/part_001) *)

Module PositionPointer.

Definition STACK_SIZE_LIMIT : Z := 50.

Record CursorStateStack := {
  _cursorStateHistory : list CursorState;
  _positionInHistory : Z
}.

(** [reset(currentState)]: the history becomes the current state only. *)
Definition reset (this : CursorStateStack) (currentState : CursorState) : CursorStateStack :=
  {| _cursorStateHistory := [currentState]; _positionInHistory := 0 |}.

(** The constructor runs [this.reset(initialState)] on the new object. *)
Definition new (initialState : CursorState) : CursorStateStack :=
  {| _cursorStateHistory := [initialState]; _positionInHistory := 0 |}.

Definition onStateUpdate (this : CursorStateStack) (newState : CursorState) : CursorStateStack :=
  (* delete all the history items that are in the future *)
  let history := JsArray.splice (_cursorStateHistory this) (_positionInHistory this + 1) in
  (* add the new state and advance the position *)
  let history := JsArray.push history newState in
  let position := _positionInHistory this + 1 in
  (* keep the cursor undo stack bounded *)
  if decide (JsArray.length history > STACK_SIZE_LIMIT)
  then {| _cursorStateHistory := JsArray.shift history; _positionInHistory := position - 1 |}
  else {| _cursorStateHistory := history; _positionInHistory := position |}.

Definition _getCurrentState (this : CursorStateStack) : option CursorState :=
  JsArray.get (_cursorStateHistory this) (_positionInHistory this).

Definition undo (this : CursorStateStack) : CursorStateStack * returned :=
  if decide (_positionInHistory this = 0) then (this, null)
  else
    let this' := {| _cursorStateHistory := _cursorStateHistory this;
                    _positionInHistory := _positionInHistory this - 1 |} in
    (this', of_read (_getCurrentState this')).

Definition redo (this : CursorStateStack) : CursorStateStack * returned :=
  if decide (_positionInHistory this = JsArray.length (_cursorStateHistory this) - 1)
  then (this, null)
  else
    let this' := {| _cursorStateHistory := _cursorStateHistory this;
                    _positionInHistory := _positionInHistory this + 1 |} in
    (this', of_read (_getCurrentState this')).

(** *** [class CursorUndoController] of part_001 *)

Definition _readState (editor : Editor) : CursorState :=
  {| selections := default [] (getSelections editor) |}.

Definition CursorUndoController := Controller CursorStateStack.

(** the listener of [editor.onDidChangeModel]: reset stack on model changes *)
Definition onDidChangeModel (this : CursorUndoController) : CursorUndoController :=
  let newState := _readState (_editor this) in
  with_cursorStateStack this (reset (_cursorStateStack this) newState).

(** the listener of [editor.onDidChangeModelContent]: reset stack on content changes *)
Definition onDidChangeModelContent (this : CursorUndoController) : CursorUndoController :=
  let newState := _readState (_editor this) in
  with_cursorStateStack this (reset (_cursorStateStack this) newState).

(** the listener of [editor.onDidChangeCursorSelection]: update stack on
    cursor changes, unless we are the ones who changed the state *)
Definition onDidChangeCursorSelection (this : CursorUndoController) : CursorUndoController :=
  if negb (_isChangingState this) then
    let newState := _readState (_editor this) in
    with_cursorStateStack this (onStateUpdate (_cursorStateStack this) newState)
  else this.

Definition new_controller (editor : Editor) : CursorUndoController :=
  {| _editor := editor; _isChangingState := false;
     _cursorStateStack := new (_readState editor) |}.

Section Commands.
Variable setSelections : write_behaviour.

Definition cursorUndo (this : CursorUndoController) : outcome CursorStateStack :=
  let '(stack, newState) := undo (_cursorStateStack this) in
  _updateCursorState setSelections onDidChangeCursorSelection
    (with_cursorStateStack this stack) newState.

Definition cursorRedo (this : CursorUndoController) : outcome CursorStateStack :=
  let '(stack, newState) := redo (_cursorStateStack this) in
  _updateCursorState setSelections onDidChangeCursorSelection
    (with_cursorStateStack this stack) newState.
End Commands.

(** what reaches the controller: the three notifications of the editor
    (with the editor as it is when it notifies) and the two commands *)
Inductive event :=
  | model_changed (editor : Editor)
  | content_changed (editor : Editor)
  | selection_changed (editor : Editor)
  | undo_command
  | redo_command.

Definition handle (setSelections : write_behaviour)
    (this : CursorUndoController) (e : event) : outcome CursorStateStack :=
  match e with
  | model_changed editor => returns (onDidChangeModel (with_editor this editor))
  | content_changed editor => returns (onDidChangeModelContent (with_editor this editor))
  | selection_changed editor => returns (onDidChangeCursorSelection (with_editor this editor))
  | undo_command => cursorUndo setSelections this
  | redo_command => cursorRedo setSelections this
  end.

(** the controller after a sequence of events, from its construction on *)
Definition execution (setSelections : write_behaviour)
    (editor : Editor) (es : list event) : CursorUndoController :=
  foldl (fun this e => after (handle setSelections this e)) (new_controller editor) es.

End PositionPointer.

(** ** The stack variants whose [redo] is a stub *)

(** First file of cursorUndo.ts: an undo stack plus the previous state;
    [undo] skips the entries equal to the current state. *)
Module UndoStackSkipEqual.

Definition STACK_SIZE_LIMIT : Z := 50.

Record CursorStateStack := {
  _undoStack : list CursorState;
  _prevState : option CursorState   (* [None] is [null] *)
}.

Definition new (initialState : option CursorState) : CursorStateStack :=
  {| _undoStack := []; _prevState := initialState |}.

Definition onStateUpdate (this : CursorStateStack) (newState : option CursorState) : CursorStateStack :=
  let undoStack :=
    match _prevState this with
    | Some prevState =>
        let undoStack := JsArray.push (_undoStack this) prevState in
        (* keep the cursor undo stack bounded *)
        if decide (JsArray.length undoStack > STACK_SIZE_LIMIT)
        then JsArray.shift undoStack else undoStack
    | None => _undoStack this
    end in
  {| _undoStack := undoStack; _prevState := newState |}.

(** the [while] loop of [undo], run for at most [n] rounds; the loop is
    entered while the stack has an entry, which is when [pop] yields one *)
Fixpoint undo_loop (n : nat) (this : CursorStateStack) (currState : CursorState)
  : CursorStateStack * returned :=
  match n with
  | O => (this, null)
  | S n' =>
      match JsArray.pop (_undoStack this) with
      | (undoStack, Some prevState) =>
          if negb (CursorState_equals prevState currState)
          then ({| _undoStack := undoStack; _prevState := Some prevState |}, state prevState)
          else undo_loop n' {| _undoStack := undoStack; _prevState := _prevState this |} currState
      | (_, None) => (this, null)
      end
  end.

(** every round pops an entry, so one more round than there are entries
    reaches the exit of the loop *)
Definition undo (this : CursorStateStack) (currState : CursorState) : CursorStateStack * returned :=
  undo_loop (S (List.length (_undoStack this))) this currState.

Definition redo (this : CursorStateStack) (currState : CursorState) : CursorStateStack * returned :=
  (* TODO: implement *)
  (this, null).

Definition reset (this : CursorStateStack) : CursorStateStack :=
  {| _undoStack := []; _prevState := None |}.

(** *** its controller *)

Definition CursorUndoController := Controller CursorStateStack.

Definition _readState (editor : Editor) : option CursorState :=
  (* no model => no state *)
  if negb (hasModel editor) then None
  else Build_CursorState <$> getSelections editor.

Definition onDidChangeCursorSelection (this : CursorUndoController) : CursorUndoController :=
  if negb (_isChangingState this) then
    with_cursorStateStack this
      (onStateUpdate (_cursorStateStack this) (_readState (_editor this)))
  else this.

(** [_updateCursorState(stateUpdateFunc)]: the new state is calculated from
    the state read from the editor; its last lines are those of the other
    files. *)
Definition _updateCursorState_with (setSelections : write_behaviour)
    (this : CursorUndoController)
    (stateUpdateFunc : CursorStateStack -> CursorState -> CursorStateStack * returned)
  : outcome CursorStateStack :=
  match _readState (_editor this) with
  | None =>
      (* there is nothing to do if there is no state *)
      returns this
  | Some currState =>
      let '(stack, newState) := stateUpdateFunc (_cursorStateStack this) currState in
      _updateCursorState setSelections onDidChangeCursorSelection
        (with_cursorStateStack this stack) newState
  end.

Definition cursorUndo (setSelections : write_behaviour) (this : CursorUndoController) :=
  _updateCursorState_with setSelections this undo.

Definition cursorRedo (setSelections : write_behaviour) (this : CursorUndoController) :=
  _updateCursorState_with setSelections this redo.

(** the listeners of [editor.onDidChangeModel] and of
    [editor.onDidChangeModelContent], and the constructor *)
Definition onDidChangeModel (this : CursorUndoController) : CursorUndoController :=
  with_cursorStateStack this (reset (_cursorStateStack this)).

Definition onDidChangeModelContent (this : CursorUndoController) : CursorUndoController :=
  with_cursorStateStack this (reset (_cursorStateStack this)).

Definition new_controller (editor : Editor) : CursorUndoController :=
  {| _editor := editor; _isChangingState := false;
     _cursorStateStack := new (_readState editor) |}.

End UndoStackSkipEqual.

(** Second file of cursorUndo.ts: the history alone, its top-most item
    being the current state. *)
Module HistoryTop.

Definition STACK_SIZE_LIMIT : Z := 50.

Record CursorStateStack := {
  _cursorStateHistory : list CursorState
}.

Definition reset (this : CursorStateStack) (currentState : CursorState) : CursorStateStack :=
  {| _cursorStateHistory := [currentState] |}.

Definition new (initialState : CursorState) : CursorStateStack :=
  {| _cursorStateHistory := [initialState] |}.

Definition onStateUpdate (this : CursorStateStack) (newState : CursorState) : CursorStateStack :=
  let history := JsArray.push (_cursorStateHistory this) newState in
  (* keep the cursor undo stack bounded *)
  if decide (JsArray.length history > STACK_SIZE_LIMIT)
  then {| _cursorStateHistory := JsArray.shift history |}
  else {| _cursorStateHistory := history |}.

Definition _getCurrentState (this : CursorStateStack) : option CursorState :=
  JsArray.get (_cursorStateHistory this) (JsArray.length (_cursorStateHistory this) - 1).

Definition undo (this : CursorStateStack) : CursorStateStack * returned :=
  if decide (JsArray.length (_cursorStateHistory this) = 1) then (this, null)
  else
    let this' := {| _cursorStateHistory := fst (JsArray.pop (_cursorStateHistory this)) |} in
    (this', of_read (_getCurrentState this')).

Definition redo (this : CursorStateStack) : CursorStateStack * returned :=
  (* TODO: implement *)
  (this, null).

(** *** its controller *)

Definition CursorUndoController := Controller CursorStateStack.

Definition _readState (editor : Editor) : CursorState :=
  {| selections := default [] (getSelections editor) |}.

Definition onDidChangeCursorSelection (this : CursorUndoController) : CursorUndoController :=
  if negb (_isChangingState this) then
    let newState := _readState (_editor this) in
    with_cursorStateStack this (onStateUpdate (_cursorStateStack this) newState)
  else this.

Definition cursorUndo (setSelections : write_behaviour) (this : CursorUndoController)
  : outcome CursorStateStack :=
  let '(stack, newState) := undo (_cursorStateStack this) in
  _updateCursorState setSelections onDidChangeCursorSelection
    (with_cursorStateStack this stack) newState.

Definition cursorRedo (setSelections : write_behaviour) (this : CursorUndoController)
  : outcome CursorStateStack :=
  let '(stack, newState) := redo (_cursorStateStack this) in
  _updateCursorState setSelections onDidChangeCursorSelection
    (with_cursorStateStack this stack) newState.

(** the listeners of [editor.onDidChangeModel] and of
    [editor.onDidChangeModelContent], and the constructor *)
Definition onDidChangeModel (this : CursorUndoController) : CursorUndoController :=
  let newState := _readState (_editor this) in
  with_cursorStateStack this (reset (_cursorStateStack this) newState).

Definition onDidChangeModelContent (this : CursorUndoController) : CursorUndoController :=
  let newState := _readState (_editor this) in
  with_cursorStateStack this (reset (_cursorStateStack this) newState).

Definition new_controller (editor : Editor) : CursorUndoController :=
  {| _editor := editor; _isChangingState := false;
     _cursorStateStack := new (_readState editor) |}.

End HistoryTop.

(** src/unnamed/part_000: an undo stack plus the previous state. *)
Module UndoStackPrev.

Definition STACK_SIZE_LIMIT : Z := 50.

Record CursorStateStack := {
  _undoStack : list CursorState;
  _prevState : option CursorState   (* [None] is [null] *)
}.

Definition new (initialState : option CursorState) : CursorStateStack :=
  {| _undoStack := []; _prevState := initialState |}.

Definition onStateUpdate (this : CursorStateStack) (newState : option CursorState) : CursorStateStack :=
  let undoStack :=
    match _prevState this with
    | Some prevState =>
        let undoStack := JsArray.push (_undoStack this) prevState in
        (* keep the cursor undo stack bounded *)
        if decide (JsArray.length undoStack > STACK_SIZE_LIMIT)
        then JsArray.shift undoStack else undoStack
    | None => _undoStack this
    end in
  {| _undoStack := undoStack; _prevState := newState |}.

Definition undo (this : CursorStateStack) : CursorStateStack * returned :=
  (* don't change anything if there is nothing in the undo stack *)
  if decide (JsArray.length (_undoStack this) = 0) then (this, null)
  else
    (* pop the latest state from the undo stack and return it *)
    let '(undoStack, popped) := JsArray.pop (_undoStack this) in
    ({| _undoStack := undoStack; _prevState := popped |}, of_read popped).

Definition redo (this : CursorStateStack) : CursorStateStack * returned :=
  (* TODO: implement *)
  (this, null).

Definition reset (this : CursorStateStack) : CursorStateStack :=
  {| _undoStack := []; _prevState := None |}.

(** *** its controller *)

Definition CursorUndoController := Controller CursorStateStack.

Definition _readState (editor : Editor) : option CursorState :=
  (* no model => no state *)
  if negb (hasModel editor) then None
  else Build_CursorState <$> getSelections editor.

Definition onDidChangeCursorSelection (this : CursorUndoController) : CursorUndoController :=
  if negb (_isChangingState this) then
    let newState := _readState (_editor this) in
    with_cursorStateStack this (onStateUpdate (_cursorStateStack this) newState)
  else this.

Definition cursorUndo (setSelections : write_behaviour) (this : CursorUndoController)
  : outcome CursorStateStack :=
  let '(stack, newState) := undo (_cursorStateStack this) in
  _updateCursorState setSelections onDidChangeCursorSelection
    (with_cursorStateStack this stack) newState.

Definition cursorRedo (setSelections : write_behaviour) (this : CursorUndoController)
  : outcome CursorStateStack :=
  let '(stack, newState) := redo (_cursorStateStack this) in
  _updateCursorState setSelections onDidChangeCursorSelection
    (with_cursorStateStack this stack) newState.

(** the listeners of [editor.onDidChangeModel] and of
    [editor.onDidChangeModelContent], and the constructor *)
Definition onDidChangeModel (this : CursorUndoController) : CursorUndoController :=
  with_cursorStateStack this (reset (_cursorStateStack this)).

Definition onDidChangeModelContent (this : CursorUndoController) : CursorUndoController :=
  with_cursorStateStack this (reset (_cursorStateStack this)).

Definition new_controller (editor : Editor) : CursorUndoController :=
  {| _editor := editor; _isChangingState := false;
     _cursorStateStack := new (_readState editor) |}.

End UndoStackPrev.

(** ** Invariants, runs, and [record] as the specification words it *)

Module HistorySpec.
Import PositionPointer.

(** the position pointer indexes an entry of the sequence *)
Definition valid_position (st : CursorStateStack) : Prop :=
  0 <= _positionInHistory st < JsArray.length (_cursorStateHistory st).

(** the data-model invariants: a non-empty sequence of at most 50 entries
    and a position pointer inside it *)
Definition invariant (st : CursorStateStack) : Prop :=
  _cursorStateHistory st <> [] /\
  JsArray.length (_cursorStateHistory st) <= 50 /\
  valid_position st.

Definition last_index (sequence : list CursorState) : Z :=
  JsArray.length sequence - 1.

(** a stack whose position pointer is at the tail of [sequence] *)
Definition at_tail (sequence : list CursorState) : CursorStateStack :=
  {| _cursorStateHistory := sequence; _positionInHistory := last_index sequence |}.

(** delete all entries after [position]: the entries whose index is at
    most [position] stay, in their order *)
Definition delete_after (position : Z) (sequence : list CursorState) : list CursorState :=
  (filter (fun ix : nat * CursorState => Z.of_nat (fst ix) <= position)
          (imap pair sequence)).*2.

(** [record(snapshot)] in the three steps of the specification *)
Definition record_spec (st : CursorStateStack) (snapshot : CursorState) : CursorStateStack :=
  let sequence := _cursorStateHistory st in
  let position := _positionInHistory st in
  (* 1. if position is not the last index, delete all entries after it *)
  let sequence :=
    if decide (position = last_index sequence) then sequence
    else delete_after position sequence in
  (* 2. append the snapshot; advance position to the new last index *)
  let sequence := sequence ++ [snapshot] in
  let position := last_index sequence in
  (* 3. beyond 50 entries, remove the entry at index 0 and decrement position *)
  if decide (JsArray.length sequence > 50)
  then {| _cursorStateHistory := delete 0%nat sequence; _positionInHistory := position - 1 |}
  else {| _cursorStateHistory := sequence; _positionInHistory := position |}.

(** the operations of the stack, and a run of them *)
Inductive operation :=
  | op_reset (s : CursorState)
  | op_record (s : CursorState)
  | op_undo
  | op_redo.

Definition perform (st : CursorStateStack) (o : operation) : CursorStateStack :=
  match o with
  | op_reset s => reset st s
  | op_record s => onStateUpdate st s
  | op_undo => fst (undo st)
  | op_redo => fst (redo st)
  end.

Definition run (st : CursorStateStack) (ops : list operation) : CursorStateStack :=
  foldl perform st ops.

(** [record] called with each snapshot of a list in turn *)
Definition record_all (st : CursorStateStack) (l : list CursorState) : CursorStateStack :=
  foldl onStateUpdate st l.

(** the values returned by [n] calls of [undo] in a row *)
Fixpoint undo_repeatedly (n : nat) (st : CursorStateStack) : list returned :=
  match n with
  | O => []
  | S n' => let '(st', r) := undo st in r :: undo_repeatedly n' st'
  end.

(** between two events the controller is idle: the flag is down and the
    stack keeps the invariants *)
Definition idle (this : CursorUndoController) : Prop :=
  _isChangingState this = false /\ invariant (_cursorStateStack this).

(** how many of the returned values are not [null] *)
Definition count_non_null (rs : list returned) : nat :=
  length (List.filter (fun r => match r with null => false | _ => true end) rs).

(** oldest-first eviction down to [n] entries: the last [n] stay *)
Definition keep_last {A} (n : nat) (l : list A) : list A :=
  drop (length l - n) l.

End HistorySpec.

(** ** Runs of the other stack classes *)

Module HistoryTopRuns.
Import HistoryTop.

Inductive operation :=
  | op_reset (s : CursorState)
  | op_record (s : CursorState)
  | op_undo
  | op_redo.

Definition perform (st : CursorStateStack) (o : operation) : CursorStateStack :=
  match o with
  | op_reset s => reset st s
  | op_record s => onStateUpdate st s
  | op_undo => fst (undo st)
  | op_redo => fst (redo st)
  end.

Definition run (st : CursorStateStack) (ops : list operation) : CursorStateStack :=
  foldl perform st ops.

(** a non-empty history of at most 50 entries *)
Definition invariant (st : CursorStateStack) : Prop :=
  _cursorStateHistory st <> [] /\ JsArray.length (_cursorStateHistory st) <= 50.

End HistoryTopRuns.

Module UndoStackPrevRuns.
Import UndoStackPrev.

Inductive operation :=
  | op_reset
  | op_record (s : option CursorState)
  | op_undo
  | op_redo.

Definition perform (st : CursorStateStack) (o : operation) : CursorStateStack :=
  match o with
  | op_reset => reset st
  | op_record s => onStateUpdate st s
  | op_undo => fst (undo st)
  | op_redo => fst (redo st)
  end.

Definition run (st : CursorStateStack) (ops : list operation) : CursorStateStack :=
  foldl perform st ops.

(** the values returned by [n] calls of [undo] in a row *)
Fixpoint undo_repeatedly (n : nat) (st : CursorStateStack) : list returned :=
  match n with
  | O => []
  | S n' => let '(st', r) := undo st in r :: undo_repeatedly n' st'
  end.

End UndoStackPrevRuns.

Module UndoStackSkipEqualRuns.
Import UndoStackSkipEqual.

Inductive operation :=
  | op_reset
  | op_record (s : option CursorState)
  | op_undo (currState : CursorState)
  | op_redo (currState : CursorState).

Definition perform (st : CursorStateStack) (o : operation) : CursorStateStack :=
  match o with
  | op_reset => reset st
  | op_record s => onStateUpdate st s
  | op_undo currState => fst (undo st currState)
  | op_redo currState => fst (redo st currState)
  end.

Definition run (st : CursorStateStack) (ops : list operation) : CursorStateStack :=
  foldl perform st ops.

(** every entry of [l] equals [currState], by [CursorState.equals] *)
Definition all_equal (currState : CursorState) (l : list CursorState) : bool :=
  forallb (fun e => CursorState_equals e currState) l.

End UndoStackSkipEqualRuns.

(** an editor's write that does replace the selections: reading them back
    gives what was written *)
Definition writes_selections (setSelections : write_behaviour) : Prop :=
  forall editor sels, getSelections (snd (setSelections editor sels)) = Some sels.

(** ** Sample data *)

(** a single collapsed cursor, as in the scenarios [S0=[(1,1)]], [S1=[(2,1)]] *)
Definition cursor_at (line col : Z) : CursorState :=
  let p := {| lineNumber := line; column := col |} in
  {| selections := [ {| anchor := p; head_ := p |} ] |}.

(** the snapshots of the scenarios, and the stacks they lead to *)
Definition S0 : CursorState := cursor_at 1 1.
Definition S1 : CursorState := cursor_at 2 1.
Definition S2 : CursorState := cursor_at 3 1.

(** after the move to [S1]: history [S0; S1], position 1 *)
Definition moved : PositionPointer.CursorStateStack :=
  PositionPointer.onStateUpdate (PositionPointer.new S0) S1.

(** after the undo back to [S0]: history [S0; S1], position 0 *)
Definition undone : PositionPointer.CursorStateStack :=
  fst (PositionPointer.undo moved).

(** an editor showing [S1], and a controller caught in the middle of a write *)
Definition editor_at_S1 : Editor :=
  {| getSelections := Some (selections S1); revealed := [] |}.

Definition writing : PositionPointer.CursorUndoController :=
  {| _editor := editor_at_S1; _isChangingState := true; _cursorStateStack := undone |}.

(** [n] distinct snapshots, on lines [1 .. n] *)
Definition distinct_snapshots (n : nat) : list CursorState :=
  (fun i => cursor_at (Z.of_nat i) 1) <$> seq 1 n.

(** an editor that takes the written selections and notifies its listener
    of the change once before the write returns *)
Definition notifying_write : write_behaviour :=
  fun editor sels =>
    let editor' := {| getSelections := Some sels; revealed := revealed editor |} in
    ([editor'], editor').

(** an editor without a model *)
Definition editor_without_model : Editor :=
  {| getSelections := None; revealed := [] |}.

(** stacks of the first file of cursorUndo.ts and of part_000 after the
    moves [S0], [S1], [S1], with [S1] the previous state *)
Definition skip_stack : UndoStackSkipEqual.CursorStateStack :=
  {| UndoStackSkipEqual._undoStack := [S0; S1; S1];
     UndoStackSkipEqual._prevState := Some S1 |}.

Definition prev_stack : UndoStackPrev.CursorStateStack :=
  {| UndoStackPrev._undoStack := [S0; S1];
     UndoStackPrev._prevState := Some S2 |}.

(** a history of the second file of cursorUndo.ts *)
Definition top_stack : HistoryTop.CursorStateStack :=
  {| HistoryTop._cursorStateHistory := [S0; S1] |}.

(** a controller of the first file of cursorUndo.ts, its editor at [S1] *)
Definition skip_controller : UndoStackSkipEqual.CursorUndoController :=
  {| _editor := editor_at_S1; _isChangingState := false; _cursorStateStack := skip_stack |}.

(** * Properties *)

Import PositionPointer HistorySpec.

(** ** Proof steps that recur *)

(** case analysis on the tests of the methods *)
Ltac stack_cases :=
  repeat match goal with
  | |- context [decide ?P] => destruct (decide P)
  | H : context [decide ?P] |- _ => destruct (decide P)
  end.

(** closes a closed goal by evaluating the definitions in it *)
Ltac evaluated :=
  vm_compute; repeat split; first [reflexivity | discriminate | lia].

(** ** Facts about the array primitives *)

Section ArrayFacts.
Context {A : Type}.
Implicit Types (arr : list A) (i p : Z).

Lemma length_nonneg arr : 0 <= JsArray.length arr.
Proof. unfold JsArray.length. lia. Qed.

Lemma length_nil_iff arr : JsArray.length arr = 0 <-> arr = [].
Proof.
  unfold JsArray.length. destruct arr; simpl; split; intros; try done; lia.
Qed.

Lemma length_push arr x : JsArray.length (JsArray.push arr x) = JsArray.length arr + 1.
Proof. unfold JsArray.length, JsArray.push. rewrite length_app. simpl. lia. Qed.

Lemma get_in_range arr i :
  0 <= i < JsArray.length arr -> exists x, JsArray.get arr i = Some x.
Proof.
  unfold JsArray.get, JsArray.length. intros Hi.
  destruct (decide (0 <= i)) as [_|]; [|lia].
  apply lookup_lt_is_Some_2. lia.
Qed.

(** inside the array, [splice(p + 1)] keeps the entries up to index [p] *)
Lemma splice_after arr p :
  0 <= p < JsArray.length arr ->
  JsArray.splice arr (p + 1) = take (S (Z.to_nat p)) arr.
Proof.
  unfold JsArray.splice, JsArray.length. intros Hp.
  destruct (decide (p + 1 < 0)); [lia|].
  f_equal. lia.
Qed.

(** at the last index, [splice(p + 1)] removes nothing *)
Lemma splice_at_tail arr p :
  p = JsArray.length arr - 1 -> JsArray.splice arr (p + 1) = arr.
Proof.
  unfold JsArray.splice, JsArray.length. intros ->.
  destruct (decide (_ < 0)); [lia|].
  apply take_ge. lia.
Qed.

Lemma shift_delete arr : JsArray.shift arr = delete 0%nat arr.
Proof. by destruct arr. Qed.
End ArrayFacts.

(** ** [undo] and [redo] *)

Lemma undo_at_start (st : CursorStateStack) :
  _positionInHistory st = 0 -> undo st = (st, null).
Proof. unfold undo. intros H. by stack_cases. Qed.

Lemma undo_null_inv (st st' : CursorStateStack) :
  undo st = (st', null) -> _positionInHistory st = 0 /\ st' = st.
Proof.
  unfold undo. stack_cases.
  - by intros [= <-].
  - unfold of_read. destruct (_getCurrentState _); discriminate.
Qed.

Lemma redo_at_tail (st : CursorStateStack) :
  _positionInHistory st = last_index (_cursorStateHistory st) -> redo st = (st, null).
Proof. unfold redo, last_index. intros H. by stack_cases. Qed.

Lemma redo_null_inv (st st' : CursorStateStack) :
  redo st = (st', null) ->
  _positionInHistory st = last_index (_cursorStateHistory st) /\ st' = st.
Proof.
  unfold redo, last_index. stack_cases.
  - by intros [= <-].
  - unfold of_read. destruct (_getCurrentState _); discriminate.
Qed.

Lemma undo_moves (st : CursorStateStack) :
  valid_position st -> _positionInHistory st <> 0 ->
  exists s,
    JsArray.get (_cursorStateHistory st) (_positionInHistory st - 1) = Some s /\
    undo st = ({| _cursorStateHistory := _cursorStateHistory st;
                  _positionInHistory := _positionInHistory st - 1 |}, state s).
Proof.
  unfold valid_position, undo, _getCurrentState. intros Hv Hp.
  destruct (get_in_range (_cursorStateHistory st) (_positionInHistory st - 1)) as [s Hs]; [lia|].
  exists s. split; [done|]. stack_cases; [done|]. simpl. by rewrite Hs.
Qed.

Lemma redo_moves (st : CursorStateStack) :
  valid_position st -> _positionInHistory st <> last_index (_cursorStateHistory st) ->
  exists s,
    JsArray.get (_cursorStateHistory st) (_positionInHistory st + 1) = Some s /\
    redo st = ({| _cursorStateHistory := _cursorStateHistory st;
                  _positionInHistory := _positionInHistory st + 1 |}, state s).
Proof.
  unfold valid_position, redo, _getCurrentState, last_index. intros Hv Hp.
  destruct (get_in_range (_cursorStateHistory st) (_positionInHistory st + 1)) as [s Hs]; [lia|].
  exists s. split; [done|]. stack_cases; [done|]. simpl. by rewrite Hs.
Qed.

(** ** Recording *)

(** what [onStateUpdate] leaves, on a valid stack *)
Lemma onStateUpdate_valid (st : CursorStateStack) (s : CursorState) :
  valid_position st ->
  let kept := take (S (Z.to_nat (_positionInHistory st))) (_cursorStateHistory st) ++ [s] in
  onStateUpdate st s =
    if decide (_positionInHistory st + 2 > 50)
    then {| _cursorStateHistory := drop 1 kept; _positionInHistory := _positionInHistory st |}
    else {| _cursorStateHistory := kept; _positionInHistory := _positionInHistory st + 1 |}.
Proof.
  destruct st as [hist pos]. unfold valid_position, onStateUpdate. simpl. intros Hv.
  rewrite splice_after by done.
  rewrite length_push. unfold JsArray.length in *. rewrite length_take.
  unfold STACK_SIZE_LIMIT, JsArray.push, JsArray.shift.
  replace (Z.of_nat (S (Z.to_nat pos) `min` length hist) + 1) with (pos + 2) by lia.
  stack_cases; f_equal; lia.
Qed.

(** after [onStateUpdate] the position pointer is at the tail *)
Lemma onStateUpdate_at_tail (st : CursorStateStack) (s : CursorState) :
  valid_position st ->
  let st' := onStateUpdate st s in
  _positionInHistory st' = last_index (_cursorStateHistory st') /\ valid_position st'.
Proof.
  intros Hv. simpl. rewrite onStateUpdate_valid by done.
  destruct st as [hist pos]. unfold valid_position, last_index, JsArray.length in *.
  simpl in *. stack_cases; cbn [_cursorStateHistory _positionInHistory];
    rewrite ?length_drop, ?length_app, ?length_take; cbn [length]; lia.
Qed.

Lemma redo_after_record (st : CursorStateStack) (s : CursorState) :
  valid_position st -> redo (onStateUpdate st s) = (onStateUpdate st s, null).
Proof. intros Hv. apply redo_at_tail. by apply onStateUpdate_at_tail. Qed.

(** ** The invariants of the data model *)

Lemma invariant_new (s : CursorState) : invariant (new s).
Proof. unfold invariant, valid_position, JsArray.length. simpl. repeat split; (done || lia). Qed.

Lemma invariant_reset (st : CursorStateStack) (s : CursorState) : invariant (reset st s).
Proof. apply invariant_new. Qed.

Lemma invariant_onStateUpdate (st : CursorStateStack) (s : CursorState) :
  invariant st -> invariant (onStateUpdate st s).
Proof.
  intros (Hne & Hlen & Hv).
  destruct (onStateUpdate_at_tail st s Hv) as [Htail Hv'].
  assert (Hbound : JsArray.length (_cursorStateHistory (onStateUpdate st s)) <= 50).
  { rewrite onStateUpdate_valid by done.
    destruct st as [hist pos]. unfold valid_position, JsArray.length in *. simpl in *.
    stack_cases; cbn [_cursorStateHistory];
      rewrite ?length_drop, ?length_app, ?length_take; cbn [length]; lia. }
  split; [|done].
  intros Hnil. apply length_nil_iff in Hnil.
  unfold valid_position in Hv'. lia.
Qed.

Lemma invariant_undo (st : CursorStateStack) : invariant st -> invariant (fst (undo st)).
Proof.
  intros (Hne & Hlen & Hv).
  destruct (decide (_positionInHistory st = 0)) as [H0|Hp].
  - by rewrite undo_at_start.
  - destruct (undo_moves st Hv Hp) as (s & _ & ->).
    unfold invariant, valid_position in *. simpl. repeat split; (done || lia).
Qed.

Lemma invariant_redo (st : CursorStateStack) : invariant st -> invariant (fst (redo st)).
Proof.
  intros (Hne & Hlen & Hv).
  destruct (decide (_positionInHistory st = last_index (_cursorStateHistory st))) as [H0|Hp].
  - by rewrite redo_at_tail.
  - destruct (redo_moves st Hv Hp) as (s & _ & ->).
    unfold invariant, valid_position, last_index in *. simpl. repeat split; (done || lia).
Qed.

Lemma invariant_perform (st : CursorStateStack) (o : operation) :
  invariant st -> invariant (perform st o).
Proof.
  destruct o; simpl; eauto using invariant_reset, invariant_onStateUpdate,
    invariant_undo, invariant_redo.
Qed.

Lemma invariant_run (ops : list operation) (st : CursorStateStack) :
  invariant st -> invariant (run st ops).
Proof.
  revert st. induction ops as [|o ops IH]; intros st Hst; [done|].
  apply IH. by apply invariant_perform.
Qed.

(** C5: whatever operations ([reset], [record], [undo], [redo]) have been
    performed on a stack since its construction, after each of them the
    history is non-empty, holds at most 50 entries, and the position
    pointer [p] satisfies [0 <= p < length]. *)
Theorem invariant_always (initialState : CursorState) (ops : list operation) (k : nat) :
  let st := run (new initialState) (take k ops) in
  _cursorStateHistory st <> [] /\
  JsArray.length (_cursorStateHistory st) <= 50 /\
  0 <= _positionInHistory st < JsArray.length (_cursorStateHistory st).
Proof. apply invariant_run, invariant_new. Qed.

(** ** [record] against its three steps *)

Lemma filter_index_take (p : Z) (l : list CursorState) (k : nat) :
  (filter (fun ix : nat * CursorState => Z.of_nat (fst ix) <= p)
          (imap (fun i x => (k + i, x)%nat) l)).*2
  = take (Z.to_nat (p + 1 - Z.of_nat k)) l.
Proof.
  revert k. induction l as [|x l IH]; intros k.
  - by rewrite take_nil.
  - rewrite imap_cons, filter_cons. simpl fst.
    rewrite (imap_ext _ (fun i x => (S k + i, x)%nat)) by (intros; simpl; f_equal; lia).
    destruct (decide (Z.of_nat (k + 0) <= p)) as [Hle|Hgt].
    + rewrite fmap_cons. simpl snd. rewrite IH.
      replace (Z.to_nat (p + 1 - Z.of_nat k)) with (S (Z.to_nat (p + 1 - Z.of_nat (S k)))) by lia.
      done.
    + rewrite IH.
      replace (Z.to_nat (p + 1 - Z.of_nat (S k))) with 0%nat by lia.
      replace (Z.to_nat (p + 1 - Z.of_nat k)) with 0%nat by lia.
      done.
Qed.

Lemma delete_after_take (p : Z) (l : list CursorState) :
  delete_after p l = take (Z.to_nat (p + 1)) l.
Proof.
  unfold delete_after.
  rewrite (imap_ext _ (fun i x => (0 + i, x)%nat)) by done.
  rewrite filter_index_take. f_equal. lia.
Qed.

Lemma onStateUpdate_steps (st : CursorStateStack) (s : CursorState) :
  valid_position st -> onStateUpdate st s = record_spec st s.
Proof.
  destruct st as [hist pos]. unfold valid_position, onStateUpdate, record_spec, last_index.
  simpl. intros Hpos.
  assert (Hkeep : JsArray.splice hist (pos + 1) =
                  (if decide (pos = JsArray.length hist - 1) then hist
                   else delete_after pos hist)).
  { destruct (decide (pos = JsArray.length hist - 1)) as [Heq|Hne].
    - by apply splice_at_tail.
    - rewrite splice_after, delete_after_take by done. f_equal. lia. }
  rewrite Hkeep. clear Hkeep.
  set (kept := if decide (pos = JsArray.length hist - 1) then hist else delete_after pos hist).
  assert (Hlen : JsArray.length kept = pos + 1).
  { subst kept. destruct (decide _) as [->|Hne]; [lia|].
    rewrite delete_after_take. unfold JsArray.length in *. rewrite length_take. lia. }
  unfold STACK_SIZE_LIMIT. fold (JsArray.push kept s).
  rewrite length_push, Hlen, shift_delete.
  destruct (decide (pos + 1 + 1 > 50)); f_equal; lia.
Qed.

(** C1: [onStateUpdate] is [record] as the specification words it (the
    entries after the position are deleted when the position is not the
    last index; the snapshot is appended and the position becomes the new
    last index; beyond 50 entries the entry at index 0 goes and the
    position is decremented), on every stack whose position pointer
    indexes an entry, and so on every stack the class can be in: whatever
    operations were performed since its construction. *)
Theorem onStateUpdate_record_spec (st : CursorStateStack) (s : CursorState)
    (initialState : CursorState) (ops : list operation) :
  (valid_position st -> onStateUpdate st s = record_spec st s) /\
  onStateUpdate (run (new initialState) ops) s = record_spec (run (new initialState) ops) s.
Proof.
  split.
  - apply onStateUpdate_steps.
  - apply onStateUpdate_steps, invariant_run, invariant_new.
Qed.

Lemma onStateUpdate_record_spec_witness :
  valid_position undone /\ onStateUpdate undone S2 = record_spec undone S2.
Proof.
  assert (Hv : valid_position undone) by evaluated.
  split; [exact Hv|].
  exact (proj1 (onStateUpdate_record_spec undone S2 S0 []) Hv).
Defined.

(** ** [undo] and [redo], as specified *)

(** C2: on every stack, [undo] returns [null] (and changes nothing) when
    the position pointer is 0, and otherwise decrements the position by
    one and returns what is stored at the new position; that is a snapshot
    whenever the position pointer indexes an entry, as it does on every
    stack the class can be in (C5). *)
Theorem undo_spec (st : CursorStateStack) :
  let st' := {| _cursorStateHistory := _cursorStateHistory st;
                _positionInHistory := _positionInHistory st - 1 |} in
  (_positionInHistory st = 0 -> undo st = (st, null)) /\
  (_positionInHistory st <> 0 ->
   undo st = (st', of_read (JsArray.get (_cursorStateHistory st) (_positionInHistory st - 1)))) /\
  (valid_position st -> _positionInHistory st <> 0 ->
   exists s,
     JsArray.get (_cursorStateHistory st) (_positionInHistory st - 1) = Some s /\
     undo st = (st', state s)).
Proof.
  cbn zeta. split; [|split].
  - apply undo_at_start.
  - intros Hp. unfold undo. by stack_cases.
  - apply undo_moves.
Qed.

Lemma undo_spec_witness :
  (_positionInHistory undone = 0 /\ undo undone = (undone, null)) /\
  (valid_position moved /\ _positionInHistory moved <> 0 /\
   exists s,
     JsArray.get (_cursorStateHistory moved) (_positionInHistory moved - 1) = Some s /\
     undo moved = ({| _cursorStateHistory := _cursorStateHistory moved;
                      _positionInHistory := _positionInHistory moved - 1 |}, state s)).
Proof.
  assert (Hm : valid_position moved) by evaluated.
  assert (H0 : _positionInHistory undone = 0) by reflexivity.
  assert (H1 : _positionInHistory moved <> 0) by evaluated.
  split.
  - split; [exact H0|]. exact (proj1 (undo_spec undone) H0).
  - split; [exact Hm|]. split; [exact H1|]. exact (proj2 (proj2 (undo_spec moved)) Hm H1).
Defined.

(** C3: on every stack, [redo] returns [null] (and changes nothing) when
    the position pointer is the last index, and otherwise increments the
    position by one and returns what is stored at the new position; that
    is a snapshot whenever the position pointer indexes an entry, as it
    does on every stack the class can be in (C5). *)
Theorem redo_spec (st : CursorStateStack) :
  let st' := {| _cursorStateHistory := _cursorStateHistory st;
                _positionInHistory := _positionInHistory st + 1 |} in
  (_positionInHistory st = last_index (_cursorStateHistory st) -> redo st = (st, null)) /\
  (_positionInHistory st <> last_index (_cursorStateHistory st) ->
   redo st = (st', of_read (JsArray.get (_cursorStateHistory st) (_positionInHistory st + 1)))) /\
  (valid_position st -> _positionInHistory st <> last_index (_cursorStateHistory st) ->
   exists s,
     JsArray.get (_cursorStateHistory st) (_positionInHistory st + 1) = Some s /\
     redo st = (st', state s)).
Proof.
  cbn zeta. split; [|split].
  - apply redo_at_tail.
  - unfold last_index. intros Hp. unfold redo. by stack_cases.
  - apply redo_moves.
Qed.

Lemma redo_spec_witness :
  (_positionInHistory moved = last_index (_cursorStateHistory moved) /\
   redo moved = (moved, null)) /\
  (valid_position undone /\
   _positionInHistory undone <> last_index (_cursorStateHistory undone) /\
   exists s,
     JsArray.get (_cursorStateHistory undone) (_positionInHistory undone + 1) = Some s /\
     redo undone = ({| _cursorStateHistory := _cursorStateHistory undone;
                       _positionInHistory := _positionInHistory undone + 1 |}, state s)).
Proof.
  assert (Hu : valid_position undone) by evaluated.
  assert (H0 : _positionInHistory moved = last_index (_cursorStateHistory moved)) by reflexivity.
  assert (H1 : _positionInHistory undone <> last_index (_cursorStateHistory undone))
    by evaluated.
  split.
  - split; [exact H0|]. exact (proj1 (redo_spec moved) H0).
  - split; [exact Hu|]. split; [exact H1|]. exact (proj2 (proj2 (redo_spec undone)) Hu H1).
Defined.

(** ** Diverging after an undo *)

(** C4: once [undo] has moved the position pointer off the tail, the redo
    branch is there ([redo] would return a snapshot); recording any
    snapshot [s2] deletes it: the history is the entries up to the position
    followed by [s2], and the following [redo] returns [null]. *)
Theorem record_after_undo_discards_redo (st : CursorStateStack) (s2 : CursorState) :
  invariant st -> snd (undo st) <> null ->
  let st1 := fst (undo st) in
  let st2 := onStateUpdate st1 s2 in
  _positionInHistory st1 < last_index (_cursorStateHistory st1) /\
  snd (redo st1) <> null /\
  _cursorStateHistory st2 =
    take (S (Z.to_nat (_positionInHistory st1))) (_cursorStateHistory st1) ++ [s2] /\
  redo st2 = (st2, null).
Proof.
  intros (Hne & Hlen & Hv) Hmoved.
  assert (Hp : _positionInHistory st <> 0).
  { intros H0. apply Hmoved. by rewrite undo_at_start. }
  destruct (undo_moves st Hv Hp) as (s & _ & Hundo). rewrite Hundo. simpl.
  set (st1 := {| _cursorStateHistory := _ |}).
  assert (Hv1 : valid_position st1) by (unfold valid_position in *; simpl; lia).
  assert (Hoff : _positionInHistory st1 < last_index (_cursorStateHistory st1)).
  { unfold last_index, valid_position in *. simpl. lia. }
  split; [done|]. split; [|split].
  - destruct (redo_moves st1 Hv1) as (s' & _ & Hredo); [lia|]. by rewrite Hredo.
  - rewrite onStateUpdate_valid by done. simpl.
    unfold last_index, valid_position in *. simpl in *. stack_cases; [lia|done].
  - by apply redo_after_record.
Qed.

Lemma record_after_undo_discards_redo_witness :
  invariant moved /\ snd (undo moved) <> null /\
  _cursorStateHistory (onStateUpdate (fst (undo moved)) S2) = [S0; S2] /\
  redo (onStateUpdate (fst (undo moved)) S2) = (onStateUpdate (fst (undo moved)) S2, null).
Proof.
  assert (Hinv : invariant moved) by evaluated.
  assert (Hmoved : snd (undo moved) <> null) by evaluated.
  split; [exact Hinv|]. split; [exact Hmoved|].
  destruct (record_after_undo_discards_redo moved S2 Hinv Hmoved) as (_ & _ & Hhist & Hredo).
  split; [exact Hhist | exact Hredo].
Defined.


(** C6: from any stack, [reset(s); record(s1); undo()] returns exactly [s]
    and a following [redo()] returns exactly [s1]. *)
Theorem reset_record_undo_redo (st : CursorStateStack) (s s1 : CursorState) :
  let st2 := onStateUpdate (reset st s) s1 in
  snd (undo st2) = state s /\
  snd (redo (fst (undo st2))) = state s1.
Proof. split; reflexivity. Qed.

(** ** The 50-entry cap *)

Lemma keep_last_app {A} (n : nat) (l1 l2 : list A) :
  keep_last n (keep_last n l1 ++ l2) = keep_last n (l1 ++ l2).
Proof.
  unfold keep_last. rewrite !length_app, length_drop.
  destruct (decide (length l1 <= n)%nat) as [Hle|Hgt].
  - replace (length l1 - n)%nat with 0%nat by lia. rewrite drop_0.
    f_equal. lia.
  - rewrite !drop_app, drop_drop, length_drop. f_equal; f_equal; lia.
Qed.

Lemma keep_last_all {A} (n : nat) (l : list A) : (length l <= n)%nat -> keep_last n l = l.
Proof. intros H. unfold keep_last. by replace (length l - n)%nat with 0%nat by lia. Qed.

Lemma length_keep_last {A} (n : nat) (l : list A) :
  length (keep_last n l) = (length l `min` n)%nat.
Proof. unfold keep_last. rewrite length_drop. lia. Qed.

Lemma onStateUpdate_at_tail_keep_last (l : list CursorState) (s : CursorState) :
  l <> [] -> (length l <= 50)%nat ->
  onStateUpdate (at_tail l) s = at_tail (keep_last 50 (l ++ [s])).
Proof.
  intros Hne Hlen.
  assert (0 < length l)%nat by (destruct l; simpl; [done|lia]).
  rewrite onStateUpdate_valid
    by (unfold valid_position, at_tail, last_index, JsArray.length; simpl; lia).
  unfold at_tail, last_index, keep_last, JsArray.length. simpl.
  rewrite take_ge by lia. rewrite !length_app. cbn [length].
  stack_cases.
  - replace (length l + 1 - 50)%nat with 1%nat by lia.
    f_equal. rewrite length_drop, length_app. cbn [length]. lia.
  - replace (length l + 1 - 50)%nat with 0%nat by lia. rewrite drop_0.
    f_equal. rewrite length_app. cbn [length]. lia.
Qed.

Lemma record_all_at_tail (l : list CursorState) (l0 : list CursorState) :
  l0 <> [] -> (length l0 <= 50)%nat ->
  record_all (at_tail l0) l = at_tail (keep_last 50 (l0 ++ l)).
Proof.
  revert l0. induction l as [|s l IH]; intros l0 Hne Hlen.
  - simpl. rewrite app_nil_r. by rewrite keep_last_all.
  - unfold record_all in *. simpl. rewrite onStateUpdate_at_tail_keep_last by done.
    rewrite IH.
    + by rewrite keep_last_app, <- app_assoc.
    + intros Hnil. apply (f_equal length) in Hnil.
      rewrite length_keep_last, length_app in Hnil. simpl in Hnil. lia.
    + rewrite length_keep_last. lia.
Qed.

Lemma undo_repeatedly_at_start (n : nat) (hist : list CursorState) :
  undo_repeatedly n {| _cursorStateHistory := hist; _positionInHistory := 0 |}
  = replicate n null.
Proof.
  induction n as [|n IH]; [done|].
  cbn [undo_repeatedly]. by rewrite undo_at_start, IH.
Qed.

Lemma undo_repeatedly_from (p n : nat) (hist : list CursorState) :
  (p < length hist)%nat ->
  undo_repeatedly (p + n) {| _cursorStateHistory := hist; _positionInHistory := Z.of_nat p |}
  = (state <$> reverse (take p hist)) ++ replicate n null.
Proof.
  induction p as [|p IH]; intros Hp.
  - apply undo_repeatedly_at_start.
  - destruct (lookup_lt_is_Some_2 hist p) as [x Hx]; [lia|].
    rewrite (take_S_r _ _ x), reverse_snoc by done.
    cbn [undo_repeatedly Nat.add].
    unfold undo, _getCurrentState, JsArray.get. cbn [_positionInHistory _cursorStateHistory].
    stack_cases; try lia.
    replace (Z.to_nat (Z.of_nat (S p) - 1)) with p by lia. rewrite Hx. cbn [of_read].
    replace (Z.of_nat (S p) - 1) with (Z.of_nat p) by lia.
    rewrite IH by lia. done.
Qed.

Lemma count_non_null_app (rs1 rs2 : list returned) :
  count_non_null (rs1 ++ rs2) = (count_non_null rs1 + count_non_null rs2)%nat.
Proof. unfold count_non_null. by rewrite List.filter_app, length_app. Qed.

Lemma count_non_null_states (l : list CursorState) :
  count_non_null (state <$> l) = length l.
Proof.
  unfold count_non_null. induction l as [|x l IH]; [done|].
  rewrite fmap_cons. cbn [List.filter length]. by rewrite IH.
Qed.

Lemma count_non_null_nulls (n : nat) : count_non_null (replicate n null) = 0%nat.
Proof. unfold count_non_null. induction n as [|n IH]; [done|]. by simpl. Qed.

Lemma undo_repeatedly_take (n m : nat) (st : CursorStateStack) :
  undo_repeatedly n st = take n (undo_repeatedly (n + m) st).
Proof.
  revert st. induction n as [|n IH]; intros st; [done|].
  simpl. destruct (undo st) as [st' r]. simpl. by rewrite <- IH.
Qed.

Lemma count_non_null_take (n : nat) (rs : list returned) :
  (count_non_null (take n rs) <= count_non_null rs)%nat.
Proof.
  rewrite <- (take_drop n rs) at 2. rewrite count_non_null_app. lia.
Qed.

(** C7: from a fresh [reset], after 60 calls of [record] (with any 60
    snapshots, distinct or not) the first 49 calls of [undo] return the 49
    snapshots recorded before the last one, newest first, and every call
    after them returns [null]; so however often [undo] is called, at most
    49 of the returned values are not [null]. *)
Theorem undo_after_60_records (st0 : CursorStateStack) (s0 : CursorState) (l : list CursorState) :
  length l = 60%nat ->
  let st := record_all (reset st0 s0) l in
  let older := reverse (take 49 (drop 10 l)) in
  length older = 49%nat /\
  (forall n, undo_repeatedly (49 + n) st = (state <$> older) ++ replicate n null) /\
  (forall n, (count_non_null (undo_repeatedly n st) <= 49)%nat).
Proof.
  intros Hl. cbn zeta.
  assert (Hst : record_all (reset st0 s0) l =
                {| _cursorStateHistory := drop 10 l; _positionInHistory := Z.of_nat 49 |}).
  { change (reset st0 s0) with (at_tail [s0]).
    rewrite record_all_at_tail by (done || simpl; lia).
    unfold at_tail, keep_last, last_index, JsArray.length.
    rewrite length_drop. cbn [app length]. rewrite Hl. simpl drop. f_equal. }
  rewrite Hst.
  assert (Hlen : length (reverse (take 49 (drop 10 l))) = 49%nat).
  { rewrite length_reverse, length_take, length_drop. lia. }
  assert (Hall : forall n,
    undo_repeatedly (49 + n) {| _cursorStateHistory := drop 10 l; _positionInHistory := Z.of_nat 49 |}
    = (state <$> reverse (take 49 (drop 10 l))) ++ replicate n null).
  { intros n. apply undo_repeatedly_from. rewrite length_drop. lia. }
  split; [done|]. split; [done|].
  intros n. rewrite (undo_repeatedly_take n 49).
  etrans; [apply count_non_null_take|].
  replace (n + 49)%nat with (49 + n)%nat by lia.
  rewrite Hall, count_non_null_app, count_non_null_states, count_non_null_nulls. lia.
Qed.

Lemma undo_after_60_records_witness :
  length (distinct_snapshots 60) = 60%nat /\
  undo_repeatedly 50 (record_all (reset moved S0) (distinct_snapshots 60))
  = (state <$> reverse (take 49 (drop 10 (distinct_snapshots 60)))) ++ [null].
Proof.
  assert (Hl : length (distinct_snapshots 60) = 60%nat) by reflexivity.
  split; [exact Hl|].
  exact (proj1 (proj2 (undo_after_60_records moved S0 (distinct_snapshots 60) Hl)) 1%nat).
Defined.


(** ** The controller *)

Lemma undo_history (st : CursorStateStack) :
  _cursorStateHistory (fst (undo st)) = _cursorStateHistory st.
Proof. unfold undo. by stack_cases. Qed.

Lemma redo_history (st : CursorStateStack) :
  _cursorStateHistory (fst (redo st)) = _cursorStateHistory st.
Proof. unfold redo. by stack_cases. Qed.

Lemma undo_defined (st : CursorStateStack) :
  valid_position st -> snd (undo st) <> undefined.
Proof.
  intros Hv. destruct (decide (_positionInHistory st = 0)) as [H0|Hp].
  - by rewrite undo_at_start.
  - by destruct (undo_moves st Hv Hp) as (s & _ & ->).
Qed.

Lemma redo_defined (st : CursorStateStack) :
  valid_position st -> snd (redo st) <> undefined.
Proof.
  intros Hv.
  destruct (decide (_positionInHistory st = last_index (_cursorStateHistory st))) as [H0|Hp].
  - by rewrite redo_at_tail.
  - by destruct (redo_moves st Hv Hp) as (s & _ & ->).
Qed.

(** while the flag is set the listener does nothing *)
Lemma listener_ignores (this : CursorUndoController) :
  _isChangingState this = true -> onDidChangeCursorSelection this = this.
Proof. unfold onDidChangeCursorSelection. by intros ->. Qed.

Lemma deliver_ignored (fired : list Editor) (this : CursorUndoController) :
  _isChangingState this = true ->
  _cursorStateStack (deliver onDidChangeCursorSelection this fired) = _cursorStateStack this /\
  _isChangingState (deliver onDidChangeCursorSelection this fired) = true.
Proof.
  revert this. induction fired as [|editor fired IH]; intros this Hflag; [done|].
  unfold deliver in *. cbn [foldl].
  rewrite listener_ignores by done.
  by destruct (IH (with_editor this editor) Hflag) as [-> ->].
Qed.

(** writing a snapshot back: whatever the editor notifies meanwhile, the
    stack is as before and the flag is cleared again *)
Lemma updateCursorState_state (setSelections : write_behaviour)
    (this : CursorUndoController) (s : CursorState) :
  _updateCursorState setSelections onDidChangeCursorSelection this (state s) =
  returns {| _editor := revealRangeInCenterIfOutsideViewport
                          (snd (setSelections (_editor this) (selections s)))
                          (selections s !! 0%nat);
             _isChangingState := false;
             _cursorStateStack := _cursorStateStack this |}.
Proof.
  unfold _updateCursorState. cbn [with_isChangingState _editor].
  destruct (setSelections (_editor this) (selections s)) as [fired editor].
  unfold with_editor, with_isChangingState. cbn.
  f_equal. f_equal.
  by destruct (deliver_ignored fired
    {| _editor := _editor this; _isChangingState := true;
       _cursorStateStack := _cursorStateStack this |} eq_refl) as [-> _].
Qed.

Lemma updateCursorState_stack (setSelections : write_behaviour)
    (this : CursorUndoController) (r : returned) :
  _cursorStateStack
    (after (_updateCursorState setSelections onDidChangeCursorSelection this r))
  = _cursorStateStack this.
Proof. destruct r; [done|done|]. by rewrite updateCursorState_state. Qed.

Lemma cursorUndo_stack (setSelections : write_behaviour) (this : CursorUndoController) :
  _cursorStateStack (after (cursorUndo setSelections this)) = fst (undo (_cursorStateStack this)).
Proof.
  unfold cursorUndo. destruct (undo (_cursorStateStack this)) as [stack r].
  by rewrite updateCursorState_stack.
Qed.

Lemma cursorRedo_stack (setSelections : write_behaviour) (this : CursorUndoController) :
  _cursorStateStack (after (cursorRedo setSelections this)) = fst (redo (_cursorStateStack this)).
Proof.
  unfold cursorRedo. destruct (redo (_cursorStateStack this)) as [stack r].
  by rewrite updateCursorState_stack.
Qed.

(** idle, a command returns (it does not throw) and leaves the controller idle *)
Lemma cursorUndo_idle (setSelections : write_behaviour) (this : CursorUndoController) :
  idle this -> exists this', cursorUndo setSelections this = returns this' /\ idle this'.
Proof.
  intros [Hflag Hinv].
  pose proof (invariant_undo _ Hinv) as Hinv'.
  pose proof (undo_defined _ (proj2 (proj2 Hinv))) as Hdef.
  unfold cursorUndo. destruct (undo (_cursorStateStack this)) as [stack [| |s]]; cbn [fst snd] in *.
  - eexists. split; [done|]. by split.
  - done.
  - rewrite updateCursorState_state. eexists. split; [done|]. by split.
Qed.

Lemma cursorRedo_idle (setSelections : write_behaviour) (this : CursorUndoController) :
  idle this -> exists this', cursorRedo setSelections this = returns this' /\ idle this'.
Proof.
  intros [Hflag Hinv].
  pose proof (invariant_redo _ Hinv) as Hinv'.
  pose proof (redo_defined _ (proj2 (proj2 Hinv))) as Hdef.
  unfold cursorRedo. destruct (redo (_cursorStateStack this)) as [stack [| |s]]; cbn [fst snd] in *.
  - eexists. split; [done|]. by split.
  - done.
  - rewrite updateCursorState_state. eexists. split; [done|]. by split.
Qed.

Lemma handle_idle (setSelections : write_behaviour) (this : CursorUndoController) (e : event) :
  idle this -> exists this', handle setSelections this e = returns this' /\ idle this'.
Proof.
  intros Hidle. destruct e as [editor|editor|editor| |]; cbn [handle].
  - eexists. split; [done|]. destruct Hidle as [Hflag _].
    split; [done|]. apply invariant_reset.
  - eexists. split; [done|]. destruct Hidle as [Hflag _].
    split; [done|]. apply invariant_reset.
  - eexists. split; [done|]. destruct Hidle as [Hflag Hinv].
    unfold onDidChangeCursorSelection. cbn [with_editor _isChangingState].
    rewrite Hflag. cbn [negb]. split; [done|]. by apply invariant_onStateUpdate.
  - by apply cursorUndo_idle.
  - by apply cursorRedo_idle.
Qed.

Lemma foldl_handle_idle (setSelections : write_behaviour) (es : list event)
    (this : CursorUndoController) :
  idle this -> idle (foldl (fun this e => after (handle setSelections this e)) this es).
Proof.
  revert this. induction es as [|e es IH]; intros this Hidle; [done|].
  cbn [foldl]. apply IH.
  by destruct (handle_idle setSelections this e Hidle) as (this' & -> & ?).
Qed.

Lemma execution_idle (setSelections : write_behaviour) (editor : Editor) (es : list event) :
  idle (execution setSelections editor es).
Proof.
  apply foldl_handle_idle. split; [done|]. apply invariant_new.
Qed.

(** C8: running out of history is the only way [undo] and [redo] fail,
    and it is reported by [null] and by nothing else.  On a freshly
    constructed or reset history [undo] and [redo] return [null].
    Whenever [undo] returns [null] the position pointer is 0, whenever
    [redo] returns [null] it is the last index, and in both cases the
    stack is left as it was, so the same call again returns [null] again;
    at those positions they do return [null].  On a stack whose position
    pointer indexes an entry, away from those positions [undo] and [redo]
    return a snapshot, and neither ever returns [undefined]; and in every
    execution of the controller every event, the two commands among them,
    is handled without a throw. *)
Theorem exhaustion_is_silent (st0 st : CursorStateStack) (s : CursorState)
    (setSelections : write_behaviour) (editor : Editor) (es : list event) (e : event) :
  (undo (new s) = (new s, null) /\ redo (new s) = (new s, null)) /\
  (undo (reset st0 s) = (reset st0 s, null) /\ redo (reset st0 s) = (reset st0 s, null)) /\
  (snd (undo st) = null ->
   _positionInHistory st = 0 /\
   undo st = (st, null) /\ undo (fst (undo st)) = (st, null)) /\
  (snd (redo st) = null ->
   _positionInHistory st = last_index (_cursorStateHistory st) /\
   redo st = (st, null) /\ redo (fst (redo st)) = (st, null)) /\
  (_positionInHistory st = 0 -> undo st = (st, null)) /\
  (_positionInHistory st = last_index (_cursorStateHistory st) -> redo st = (st, null)) /\
  (valid_position st ->
   (_positionInHistory st <> 0 -> exists s', snd (undo st) = state s') /\
   (_positionInHistory st <> last_index (_cursorStateHistory st) ->
    exists s', snd (redo st) = state s') /\
   snd (undo st) <> undefined /\ snd (redo st) <> undefined) /\
  (exists this', handle setSelections (execution setSelections editor es) e = returns this').
Proof.
  split; [done|]. split; [done|].
  split; [|split; [|split; [|split; [|split]]]].
  - intros Hnull. destruct (undo st) as [st' r] eqn:Hundo. simpl in Hnull. subst r.
    destruct (undo_null_inv _ _ Hundo) as [H0 ->]. by repeat split.
  - intros Hnull. destruct (redo st) as [st' r] eqn:Hredo. simpl in Hnull. subst r.
    destruct (redo_null_inv _ _ Hredo) as [H0 ->]. by repeat split.
  - apply undo_at_start.
  - apply redo_at_tail.
  - intros Hv. split; [|split; [|split]].
    + intros Hp. destruct (undo_moves st Hv Hp) as (s' & _ & ->). by exists s'.
    + intros Hp. destruct (redo_moves st Hv Hp) as (s' & _ & ->). by exists s'.
    + by apply undo_defined.
    + by apply redo_defined.
  - destruct (handle_idle setSelections _ e (execution_idle setSelections editor es))
      as (this' & Hret & _).
    by exists this'.
Qed.

Lemma exhaustion_is_silent_witness :
  (snd (undo undone) = null /\
   _positionInHistory undone = 0 /\ undo (fst (undo undone)) = (undone, null)) /\
  (snd (redo moved) = null /\
   _positionInHistory moved = last_index (_cursorStateHistory moved) /\
   redo (fst (redo moved)) = (moved, null)) /\
  (_positionInHistory undone = 0 /\ undo undone = (undone, null)) /\
  (_positionInHistory moved = last_index (_cursorStateHistory moved) /\
   redo moved = (moved, null)) /\
  (valid_position moved /\ _positionInHistory moved <> 0 /\
   exists s', snd (undo moved) = state s') /\
  (valid_position undone /\
   _positionInHistory undone <> last_index (_cursorStateHistory undone) /\
   (exists s', snd (redo undone) = state s') /\ snd (redo undone) <> undefined).
Proof.
  assert (Hu : snd (undo undone) = null) by reflexivity.
  assert (Hr : snd (redo moved) = null) by reflexivity.
  assert (Hvm : valid_position moved) by evaluated.
  assert (Hpm : _positionInHistory moved <> 0) by evaluated.
  assert (Hvu : valid_position undone) by evaluated.
  assert (Hpu : _positionInHistory undone <> last_index (_cursorStateHistory undone))
    by evaluated.
  assert (H0u : _positionInHistory undone = 0) by reflexivity.
  assert (H0m : _positionInHistory moved = last_index (_cursorStateHistory moved))
    by reflexivity.
  split; [|split; [|split; [|split; [|split]]]].
  - split; [exact Hu|].
    destruct (exhaustion_is_silent moved undone S0 notifying_write editor_at_S1
                [selection_changed editor_at_S1] undo_command) as (_ & _ & H & _).
    destruct (H Hu) as (H0 & _ & Hagain). split; [exact H0 | exact Hagain].
  - split; [exact Hr|].
    destruct (exhaustion_is_silent moved moved S0 notifying_write editor_at_S1
                [selection_changed editor_at_S1] redo_command) as (_ & _ & _ & H & _).
    destruct (H Hr) as (H0 & _ & Hagain). split; [exact H0 | exact Hagain].
  - split; [exact H0u|].
    destruct (exhaustion_is_silent moved undone S0 notifying_write editor_at_S1
                [selection_changed editor_at_S1] undo_command) as (_ & _ & _ & _ & H & _).
    exact (H H0u).
  - split; [exact H0m|].
    destruct (exhaustion_is_silent moved moved S0 notifying_write editor_at_S1
                [selection_changed editor_at_S1] redo_command)
      as (_ & _ & _ & _ & _ & H & _).
    exact (H H0m).
  - split; [exact Hvm|]. split; [exact Hpm|].
    destruct (exhaustion_is_silent moved moved S0 notifying_write editor_at_S1
                [selection_changed editor_at_S1] undo_command)
      as (_ & _ & _ & _ & _ & _ & H & _).
    exact (proj1 (H Hvm) Hpm).
  - split; [exact Hvu|]. split; [exact Hpu|].
    destruct (exhaustion_is_silent moved undone S0 notifying_write editor_at_S1
                [selection_changed editor_at_S1] undo_command)
      as (_ & _ & _ & _ & _ & _ & H & _).
    destruct (H Hvu) as (_ & Hredo & _ & Hdef).
    split; [exact (Hredo Hpu) | exact Hdef].
Defined.

(** C9: a selection-changed notification that reaches the controller while
    [_isChangingState] is set is dropped: the listener leaves the controller
    as it is.  So whatever notifications the editor delivers during the
    write of a restored snapshot, the write leaves the stack as it was and
    the flag cleared, and after [cursorUndo] or [cursorRedo] the stack is
    the one [undo] or [redo] left, with the history entries it had before
    the command. *)
Theorem applying_state_is_not_recorded (setSelections : write_behaviour)
    (this : CursorUndoController) (s : CursorState) :
  (_isChangingState this = true -> onDidChangeCursorSelection this = this) /\
  (_isChangingState this = true ->
   forall fired,
     _cursorStateStack (deliver onDidChangeCursorSelection this fired)
     = _cursorStateStack this) /\
  (exists this',
     _updateCursorState setSelections onDidChangeCursorSelection this (state s) = returns this' /\
     _cursorStateStack this' = _cursorStateStack this /\
     _isChangingState this' = false) /\
  (_cursorStateStack (after (cursorUndo setSelections this))
     = fst (undo (_cursorStateStack this)) /\
   _cursorStateHistory (_cursorStateStack (after (cursorUndo setSelections this)))
     = _cursorStateHistory (_cursorStateStack this)) /\
  (_cursorStateStack (after (cursorRedo setSelections this))
     = fst (redo (_cursorStateStack this)) /\
   _cursorStateHistory (_cursorStateStack (after (cursorRedo setSelections this)))
     = _cursorStateHistory (_cursorStateStack this)).
Proof.
  split; [apply listener_ignores|]. split; [|split; [|split]].
  - intros Hflag fired. by destruct (deliver_ignored fired this Hflag).
  - rewrite updateCursorState_state. by eexists.
  - rewrite cursorUndo_stack. split; [done|]. apply undo_history.
  - rewrite cursorRedo_stack. split; [done|]. apply redo_history.
Qed.

Lemma applying_state_is_not_recorded_witness :
  _isChangingState writing = true /\
  onDidChangeCursorSelection writing = writing /\
  _cursorStateStack
    (deliver onDidChangeCursorSelection writing
       (fst (notifying_write (_editor writing) (selections S0))))
  = _cursorStateStack writing.
Proof.
  assert (Hflag : _isChangingState writing = true) by reflexivity.
  destruct (applying_state_is_not_recorded notifying_write writing S0) as (H1 & H2 & _).
  split; [exact Hflag|]. split; [exact (H1 Hflag) | exact (H2 Hflag _)].
Defined.


(** ** The variants without redo *)

(** C10: in the three variants other than the position-pointer one, [redo]
    returns [null] on every stack and leaves it as it is, and the soft-redo
    command [cursorRedo] returns with the controller, its editor included,
    as it was. *)
Theorem redo_stub_is_noop (setSelections : write_behaviour) (currState : CursorState)
    (a : UndoStackSkipEqual.CursorUndoController)
    (b : HistoryTop.CursorUndoController)
    (c : UndoStackPrev.CursorUndoController) :
  (UndoStackSkipEqual.redo (_cursorStateStack a) currState = (_cursorStateStack a, null) /\
   UndoStackSkipEqual.cursorRedo setSelections a = returns a) /\
  (HistoryTop.redo (_cursorStateStack b) = (_cursorStateStack b, null) /\
   HistoryTop.cursorRedo setSelections b = returns b) /\
  (UndoStackPrev.redo (_cursorStateStack c) = (_cursorStateStack c, null) /\
   UndoStackPrev.cursorRedo setSelections c = returns c).
Proof.
  repeat split.
  - unfold UndoStackSkipEqual.cursorRedo, UndoStackSkipEqual._updateCursorState_with.
    destruct (UndoStackSkipEqual._readState (_editor a)); [|done].
    by destruct a.
  - by destruct b.
  - by destruct c.
Qed.

(** ** The scenarios of the specification, run *)

Example scenario_undo_redo :
  undo moved = (undone, state S0) /\ redo undone = (moved, state S1).
Proof. split; reflexivity. Qed.

Example scenario_branch_discarded :
  onStateUpdate undone S2 = at_tail [S0; S2] /\
  redo (onStateUpdate undone S2) = (onStateUpdate undone S2, null).
Proof. split; reflexivity. Qed.

Example scenario_content_changed :
  let this := execution notifying_write editor_at_S1
                [selection_changed editor_at_S1; selection_changed editor_at_S1;
                 content_changed editor_at_S1] in
  snd (undo (_cursorStateStack this)) = null /\
  snd (redo (_cursorStateStack this)) = null.
Proof. split; reflexivity. Qed.

(** the editor starts at [S0], the cursor moves to [S1], then soft undo and
    soft redo: the write of each command notifies the listener once, and
    the history stays [S0; S1] *)
Example scenario_commands :
  let start := {| getSelections := Some (selections S0); revealed := [] |} in
  let after_undo := execution notifying_write start
                      [selection_changed editor_at_S1; undo_command] in
  let after_redo := execution notifying_write start
                      [selection_changed editor_at_S1; undo_command; redo_command] in
  _cursorStateStack after_undo = undone /\
  getSelections (_editor after_undo) = Some (selections S0) /\
  _cursorStateStack after_redo = moved /\
  getSelections (_editor after_redo) = Some (selections S1) /\
  _isChangingState after_redo = false.
Proof. repeat split; reflexivity. Qed.

(** * More of the code *)

(** ** The position-pointer stack: how its operations compose *)

(** X1: on a stack whose position pointer indexes an entry and is not 0,
    [undo] followed by [redo] leaves the stack exactly as it was, and the
    [redo] returns the snapshot that was current before the [undo]. *)
Theorem undo_then_redo (st : CursorStateStack) :
  valid_position st -> _positionInHistory st <> 0 ->
  exists cur,
    _getCurrentState st = Some cur /\
    redo (fst (undo st)) = (st, state cur).
Proof.
  intros Hv Hp.
  destruct (get_in_range (_cursorStateHistory st) (_positionInHistory st) Hv) as [cur Hcur].
  exists cur. split; [done|].
  destruct (undo_moves st Hv Hp) as (s & _ & ->). cbn [fst].
  destruct st as [hist pos]. unfold valid_position in Hv. cbn in *.
  unfold redo, _getCurrentState. cbn [_positionInHistory _cursorStateHistory].
  stack_cases; [lia|].
  replace (pos - 1 + 1) with pos by lia. by rewrite Hcur.
Qed.

Lemma undo_then_redo_witness :
  valid_position moved /\ _positionInHistory moved <> 0 /\
  exists cur, _getCurrentState moved = Some cur /\ redo (fst (undo moved)) = (moved, state cur).
Proof.
  assert (Hv : valid_position moved) by evaluated.
  assert (Hp : _positionInHistory moved <> 0) by evaluated.
  split; [exact Hv|]. split; [exact Hp|]. exact (undo_then_redo moved Hv Hp).
Defined.

(** X2: on a stack whose position pointer indexes an entry other than the
    last, [redo] followed by [undo] leaves the stack exactly as it was,
    and the [undo] returns the snapshot that was current before the
    [redo]. *)
Theorem redo_then_undo (st : CursorStateStack) :
  valid_position st -> _positionInHistory st <> last_index (_cursorStateHistory st) ->
  exists cur,
    _getCurrentState st = Some cur /\
    undo (fst (redo st)) = (st, state cur).
Proof.
  intros Hv Hp.
  destruct (get_in_range (_cursorStateHistory st) (_positionInHistory st) Hv) as [cur Hcur].
  exists cur. split; [done|].
  destruct (redo_moves st Hv Hp) as (s & _ & ->). cbn [fst].
  destruct st as [hist pos]. unfold valid_position, last_index in *. cbn in *.
  unfold undo, _getCurrentState. cbn [_positionInHistory _cursorStateHistory].
  stack_cases; [lia|].
  replace (pos + 1 - 1) with pos by lia. by rewrite Hcur.
Qed.

Lemma redo_then_undo_witness :
  valid_position undone /\
  _positionInHistory undone <> last_index (_cursorStateHistory undone) /\
  exists cur, _getCurrentState undone = Some cur /\ undo (fst (redo undone)) = (undone, state cur).
Proof.
  assert (Hv : valid_position undone) by evaluated.
  assert (Hp : _positionInHistory undone <> last_index (_cursorStateHistory undone))
    by evaluated.
  split; [exact Hv|]. split; [exact Hp|]. exact (redo_then_undo undone Hv Hp).
Defined.

Lemma onStateUpdate_current_then_undo (st : CursorStateStack) (s : CursorState) :
  valid_position st ->
  exists cur,
    _getCurrentState st = Some cur /\
    _getCurrentState (onStateUpdate st s) = Some s /\
    snd (undo (onStateUpdate st s)) = state cur.
Proof.
  intros Hv.
  destruct (get_in_range (_cursorStateHistory st) (_positionInHistory st) Hv) as [cur Hcur].
  exists cur. split; [done|].
  rewrite onStateUpdate_valid by done.
  destruct st as [hist pos]. unfold valid_position, JsArray.length in Hv.
  unfold JsArray.get in Hcur. cbn [_cursorStateHistory _positionInHistory] in *.
  destruct (decide (0 <= pos)) as [_|]; [|lia].
  assert (Hlen : length (take (S (Z.to_nat pos)) hist) = S (Z.to_nat pos))
    by (rewrite length_take; lia).
  assert (Hnew : (take (S (Z.to_nat pos)) hist ++ [s]) !! S (Z.to_nat pos) = Some s)
    by (by apply list_lookup_middle).
  assert (Hold : (take (S (Z.to_nat pos)) hist ++ [s]) !! Z.to_nat pos = Some cur).
  { rewrite lookup_app_l by lia. rewrite lookup_take_lt by lia. done. }
  unfold undo, _getCurrentState, JsArray.get.
  stack_cases; cbn [_cursorStateHistory _positionInHistory fst snd]; stack_cases;
    cbn [_cursorStateHistory _positionInHistory] in *; try lia.
  - split.
    + rewrite lookup_drop. by replace (1 + Z.to_nat pos)%nat with (S (Z.to_nat pos)) by lia.
    + rewrite lookup_drop.
      replace (1 + Z.to_nat (pos - 1))%nat with (Z.to_nat pos) by lia. by rewrite Hold.
  - split.
    + by replace (Z.to_nat (pos + 1)) with (S (Z.to_nat pos)) by lia.
    + replace (Z.to_nat (pos + 1 - 1)) with (Z.to_nat pos) by lia. by rewrite Hold.
Qed.

(** X3: on a stack whose position pointer indexes an entry, also one that
    is full, [onStateUpdate] makes the recorded snapshot the current one,
    and an [undo] right after it returns the snapshot that was current
    before the recording. *)
Theorem record_then_undo (st : CursorStateStack) (s : CursorState) :
  valid_position st ->
  exists cur,
    _getCurrentState st = Some cur /\
    _getCurrentState (onStateUpdate st s) = Some s /\
    snd (undo (onStateUpdate st s)) = state cur.
Proof. apply onStateUpdate_current_then_undo. Qed.

Lemma record_then_undo_witness :
  valid_position undone /\
  exists cur,
    _getCurrentState undone = Some cur /\
    _getCurrentState (onStateUpdate undone S2) = Some S2 /\
    snd (undo (onStateUpdate undone S2)) = state cur.
Proof.
  assert (Hv : valid_position undone) by evaluated.
  split; [exact Hv|]. exact (record_then_undo undone S2 Hv).
Defined.

(** X4: on a stack whose position pointer [p] indexes an entry, the first
    [p] calls of [undo] return the [p] entries before the position, the
    nearest first, and every call after them returns [null]. *)
Theorem undo_until_exhausted (st : CursorStateStack) (n : nat) :
  valid_position st ->
  undo_repeatedly (Z.to_nat (_positionInHistory st) + n) st
  = (state <$> reverse (take (Z.to_nat (_positionInHistory st)) (_cursorStateHistory st)))
    ++ replicate n null.
Proof.
  destruct st as [hist pos]. unfold valid_position, JsArray.length. cbn. intros Hv.
  rewrite <- (Z2Nat.id pos) at 2 by lia.
  apply undo_repeatedly_from. lia.
Qed.

Lemma undo_until_exhausted_witness :
  valid_position moved /\
  undo_repeatedly (Z.to_nat (_positionInHistory moved) + 2) moved
  = (state <$> reverse (take (Z.to_nat (_positionInHistory moved)) (_cursorStateHistory moved)))
    ++ replicate 2 null.
Proof.
  assert (Hv : valid_position moved) by evaluated.
  split; [exact Hv|]. exact (undo_until_exhausted moved 2 Hv).
Defined.

(** X5: recording a run of snapshots on a stack that keeps the invariants
    leaves the last 50 of: the entries up to the position, followed by the
    recorded snapshots; the position pointer is at the tail.  The oldest
    entries are the ones evicted, and the entries after the position are
    gone. *)
Theorem record_all_keeps_last_50 (st : CursorStateStack) (s : CursorState) (l : list CursorState) :
  invariant st ->
  record_all st (s :: l)
  = at_tail (keep_last 50
      (take (S (Z.to_nat (_positionInHistory st))) (_cursorStateHistory st) ++ s :: l)).
Proof.
  intros (Hne & Hlen & Hv).
  set (kept := take (S (Z.to_nat (_positionInHistory st))) (_cursorStateHistory st)).
  assert (Hkept : length kept = S (Z.to_nat (_positionInHistory st))).
  { subst kept. unfold valid_position, JsArray.length in *. rewrite length_take. lia. }
  assert (Hfirst : onStateUpdate st s = at_tail (keep_last 50 (kept ++ [s]))).
  { rewrite onStateUpdate_valid by done. fold kept.
    unfold valid_position, at_tail, last_index, keep_last, JsArray.length in *.
    rewrite !length_drop, !length_app, Hkept. cbn [length].
    stack_cases.
    - replace (S (Z.to_nat (_positionInHistory st)) + 1 - 50)%nat with 1%nat by lia.
      f_equal. lia.
    - replace (S (Z.to_nat (_positionInHistory st)) + 1 - 50)%nat with 0%nat by lia.
      rewrite drop_0. f_equal. lia. }
  unfold record_all. cbn [foldl]. fold (record_all (onStateUpdate st s) l).
  rewrite Hfirst, record_all_at_tail.
  - rewrite keep_last_app, <- app_assoc. done.
  - intros Hnil. apply (f_equal length) in Hnil.
    rewrite length_keep_last, length_app in Hnil. cbn [length] in Hnil. lia.
  - rewrite length_keep_last. lia.
Qed.

Lemma record_all_keeps_last_50_witness :
  invariant undone /\
  record_all undone (S2 :: distinct_snapshots 60)
  = at_tail (keep_last 50
      (take (S (Z.to_nat (_positionInHistory undone))) (_cursorStateHistory undone)
       ++ S2 :: distinct_snapshots 60)).
Proof.
  assert (Hinv : invariant undone) by evaluated.
  split; [exact Hinv|]. exact (record_all_keeps_last_50 undone S2 (distinct_snapshots 60) Hinv).
Defined.

(** ** The controller of part_001: listeners and commands *)

Lemma with_own_stack {Stack} (this : Controller Stack) :
  with_cursorStateStack this (_cursorStateStack this) = this.
Proof. by destruct this. Qed.

(** X6: right after a model change or a content change, whatever the
    history held, both commands return with the controller (its editor
    included) as it is: nothing is written to the editor. *)
Theorem change_erases_history (setSelections : write_behaviour) (this : CursorUndoController) :
  (cursorUndo setSelections (onDidChangeModel this) = returns (onDidChangeModel this) /\
   cursorRedo setSelections (onDidChangeModel this) = returns (onDidChangeModel this)) /\
  (cursorUndo setSelections (onDidChangeModelContent this) = returns (onDidChangeModelContent this) /\
   cursorRedo setSelections (onDidChangeModelContent this) = returns (onDidChangeModelContent this)).
Proof. by destruct this. Qed.

Lemma cursorUndo_moves (setSelections : write_behaviour) (this : CursorUndoController) :
  valid_position (_cursorStateStack this) ->
  _positionInHistory (_cursorStateStack this) <> 0 ->
  exists s,
    JsArray.get (_cursorStateHistory (_cursorStateStack this))
                (_positionInHistory (_cursorStateStack this) - 1) = Some s /\
    cursorUndo setSelections this =
    returns {| _editor := revealRangeInCenterIfOutsideViewport
                            (snd (setSelections (_editor this) (selections s)))
                            (selections s !! 0%nat);
               _isChangingState := false;
               _cursorStateStack :=
                 {| _cursorStateHistory := _cursorStateHistory (_cursorStateStack this);
                    _positionInHistory := _positionInHistory (_cursorStateStack this) - 1 |} |}.
Proof.
  intros Hv Hp. destruct (undo_moves _ Hv Hp) as (s & Hs & Hundo).
  exists s. split; [done|].
  unfold cursorUndo. rewrite Hundo. by rewrite updateCursorState_state.
Qed.

Lemma cursorRedo_moves (setSelections : write_behaviour) (this : CursorUndoController) :
  valid_position (_cursorStateStack this) ->
  _positionInHistory (_cursorStateStack this)
    <> last_index (_cursorStateHistory (_cursorStateStack this)) ->
  exists s,
    JsArray.get (_cursorStateHistory (_cursorStateStack this))
                (_positionInHistory (_cursorStateStack this) + 1) = Some s /\
    cursorRedo setSelections this =
    returns {| _editor := revealRangeInCenterIfOutsideViewport
                            (snd (setSelections (_editor this) (selections s)))
                            (selections s !! 0%nat);
               _isChangingState := false;
               _cursorStateStack :=
                 {| _cursorStateHistory := _cursorStateHistory (_cursorStateStack this);
                    _positionInHistory := _positionInHistory (_cursorStateStack this) + 1 |} |}.
Proof.
  intros Hv Hp. destruct (redo_moves _ Hv Hp) as (s & Hs & Hredo).
  exists s. split; [done|].
  unfold cursorRedo. rewrite Hredo. by rewrite updateCursorState_state.
Qed.

(** X7: with a state from the past to go to (a valid position other than
    0), [cursorUndo] returns with the position one lower, the editor as
    the write of that entry's selections left it plus one request to
    reveal the entry's first selection, and the flag down; with the
    position at 0 it returns with the controller as it is. *)
Theorem cursorUndo_effect (setSelections : write_behaviour) (this : CursorUndoController) :
  valid_position (_cursorStateStack this) ->
  (_positionInHistory (_cursorStateStack this) = 0 ->
   cursorUndo setSelections this = returns this) /\
  (_positionInHistory (_cursorStateStack this) <> 0 ->
   exists s,
     JsArray.get (_cursorStateHistory (_cursorStateStack this))
                 (_positionInHistory (_cursorStateStack this) - 1) = Some s /\
     cursorUndo setSelections this =
     returns {| _editor := revealRangeInCenterIfOutsideViewport
                             (snd (setSelections (_editor this) (selections s)))
                             (selections s !! 0%nat);
                _isChangingState := false;
                _cursorStateStack :=
                  {| _cursorStateHistory := _cursorStateHistory (_cursorStateStack this);
                     _positionInHistory := _positionInHistory (_cursorStateStack this) - 1 |} |}).
Proof.
  intros Hv. split.
  - intros H0. unfold cursorUndo. rewrite undo_at_start by done.
    cbn [_updateCursorState]. by rewrite with_own_stack.
  - by apply cursorUndo_moves.
Qed.

Lemma cursorUndo_effect_witness :
  (valid_position undone /\ _positionInHistory undone = 0 /\
   cursorUndo notifying_write
     {| _editor := editor_at_S1; _isChangingState := false; _cursorStateStack := undone |}
   = returns {| _editor := editor_at_S1; _isChangingState := false;
                _cursorStateStack := undone |}) /\
  (valid_position moved /\ _positionInHistory moved <> 0 /\
   exists s,
     JsArray.get (_cursorStateHistory moved) (_positionInHistory moved - 1) = Some s /\
     cursorUndo notifying_write
       {| _editor := editor_at_S1; _isChangingState := false; _cursorStateStack := moved |} =
     returns {| _editor := revealRangeInCenterIfOutsideViewport
                             (snd (notifying_write editor_at_S1 (selections s)))
                             (selections s !! 0%nat);
                _isChangingState := false;
                _cursorStateStack :=
                  {| _cursorStateHistory := _cursorStateHistory moved;
                     _positionInHistory := _positionInHistory moved - 1 |} |}).
Proof.
  assert (Hu : valid_position undone) by evaluated.
  assert (H0 : _positionInHistory undone = 0) by reflexivity.
  assert (Hv : valid_position moved) by evaluated.
  assert (Hp : _positionInHistory moved <> 0) by evaluated.
  split.
  - split; [exact Hu|]. split; [exact H0|].
    exact (proj1 (cursorUndo_effect notifying_write
      {| _editor := editor_at_S1; _isChangingState := false; _cursorStateStack := undone |}
      Hu) H0).
  - split; [exact Hv|]. split; [exact Hp|].
    exact (proj2 (cursorUndo_effect notifying_write
      {| _editor := editor_at_S1; _isChangingState := false; _cursorStateStack := moved |}
      Hv) Hp).
Defined.

(** X8: with a state from the future to go to (a valid position other than
    the last index), [cursorRedo] returns with the position one higher,
    the editor as the write of that entry's selections left it plus one
    request to reveal the entry's first selection, and the flag down; with
    the position at the last index it returns with the controller as it
    is. *)
Theorem cursorRedo_effect (setSelections : write_behaviour) (this : CursorUndoController) :
  valid_position (_cursorStateStack this) ->
  (_positionInHistory (_cursorStateStack this)
     = last_index (_cursorStateHistory (_cursorStateStack this)) ->
   cursorRedo setSelections this = returns this) /\
  (_positionInHistory (_cursorStateStack this)
     <> last_index (_cursorStateHistory (_cursorStateStack this)) ->
   exists s,
     JsArray.get (_cursorStateHistory (_cursorStateStack this))
                 (_positionInHistory (_cursorStateStack this) + 1) = Some s /\
     cursorRedo setSelections this =
     returns {| _editor := revealRangeInCenterIfOutsideViewport
                             (snd (setSelections (_editor this) (selections s)))
                             (selections s !! 0%nat);
                _isChangingState := false;
                _cursorStateStack :=
                  {| _cursorStateHistory := _cursorStateHistory (_cursorStateStack this);
                     _positionInHistory := _positionInHistory (_cursorStateStack this) + 1 |} |}).
Proof.
  intros Hv. split.
  - intros H0. unfold cursorRedo. rewrite redo_at_tail by done.
    cbn [_updateCursorState]. by rewrite with_own_stack.
  - by apply cursorRedo_moves.
Qed.

Lemma cursorRedo_effect_witness :
  (valid_position moved /\
   _positionInHistory moved = last_index (_cursorStateHistory moved) /\
   cursorRedo notifying_write
     {| _editor := editor_at_S1; _isChangingState := false; _cursorStateStack := moved |}
   = returns {| _editor := editor_at_S1; _isChangingState := false;
                _cursorStateStack := moved |}) /\
  (valid_position undone /\
   _positionInHistory undone <> last_index (_cursorStateHistory undone) /\
   exists s,
     JsArray.get (_cursorStateHistory undone) (_positionInHistory undone + 1) = Some s /\
     cursorRedo notifying_write
       {| _editor := editor_at_S1; _isChangingState := false; _cursorStateStack := undone |} =
     returns {| _editor := revealRangeInCenterIfOutsideViewport
                             (snd (notifying_write editor_at_S1 (selections s)))
                             (selections s !! 0%nat);
                _isChangingState := false;
                _cursorStateStack :=
                  {| _cursorStateHistory := _cursorStateHistory undone;
                     _positionInHistory := _positionInHistory undone + 1 |} |}).
Proof.
  assert (Hm : valid_position moved) by evaluated.
  assert (H0 : _positionInHistory moved = last_index (_cursorStateHistory moved))
    by reflexivity.
  assert (Hv : valid_position undone) by evaluated.
  assert (Hp : _positionInHistory undone <> last_index (_cursorStateHistory undone))
    by evaluated.
  split.
  - split; [exact Hm|]. split; [exact H0|].
    exact (proj1 (cursorRedo_effect notifying_write
      {| _editor := editor_at_S1; _isChangingState := false; _cursorStateStack := moved |}
      Hm) H0).
  - split; [exact Hv|]. split; [exact Hp|].
    exact (proj2 (cursorRedo_effect notifying_write
      {| _editor := editor_at_S1; _isChangingState := false; _cursorStateStack := undone |}
      Hv) Hp).
Defined.

(** X9: in every execution of the controller (any notifications and
    commands, any behaviour of the editor's write), between two events the
    flag is down and the stack is non-empty, holds at most 50 entries and
    has its position pointer inside it. *)
Theorem execution_keeps_invariants (setSelections : write_behaviour)
    (editor : Editor) (es : list event) :
  let this := execution setSelections editor es in
  _isChangingState this = false /\
  _cursorStateHistory (_cursorStateStack this) <> [] /\
  JsArray.length (_cursorStateHistory (_cursorStateStack this)) <= 50 /\
  0 <= _positionInHistory (_cursorStateStack this)
    < JsArray.length (_cursorStateHistory (_cursorStateStack this)).
Proof. apply execution_idle. Qed.

(** the entry at the position is what the editor shows *)
Lemma readState_written (editor : Editor) (s : CursorState) (range : option Selection) :
  getSelections editor = Some (selections s) ->
  _readState (revealRangeInCenterIfOutsideViewport editor range) = s.
Proof. unfold _readState. cbn. intros ->. by destruct s. Qed.

Lemma handle_tracks (setSelections : write_behaviour) (this : CursorUndoController) (e : event) :
  writes_selections setSelections ->
  idle this ->
  _getCurrentState (_cursorStateStack this) = Some (_readState (_editor this)) ->
  let this' := after (handle setSelections this e) in
  _getCurrentState (_cursorStateStack this') = Some (_readState (_editor this')).
Proof.
  intros Hw [Hflag (Hne & Hlen & Hv)] Htrack. cbn zeta.
  destruct e as [editor|editor|editor| |]; cbn [handle after].
  - done.
  - done.
  - unfold onDidChangeCursorSelection. cbn [with_editor _isChangingState _editor].
    rewrite Hflag. cbn [negb with_editor with_cursorStateStack _cursorStateStack _editor].
    by destruct (onStateUpdate_current_then_undo (_cursorStateStack this) (_readState editor) Hv)
      as (cur & _ & -> & _).
  - destruct (decide (_positionInHistory (_cursorStateStack this) = 0)) as [H0|Hp].
    + unfold cursorUndo. rewrite undo_at_start by done.
      cbn [_updateCursorState after]. by rewrite with_own_stack.
    + destruct (cursorUndo_moves setSelections this Hv Hp) as (s & Hs & ->).
      cbn [after _cursorStateStack _editor]. unfold _getCurrentState.
      cbn [_cursorStateHistory _positionInHistory]. rewrite Hs.
      by rewrite (readState_written _ s) by apply Hw.
  - destruct (decide (_positionInHistory (_cursorStateStack this)
                      = last_index (_cursorStateHistory (_cursorStateStack this)))) as [H0|Hp].
    + unfold cursorRedo. rewrite redo_at_tail by done.
      cbn [_updateCursorState after]. by rewrite with_own_stack.
    + destruct (cursorRedo_moves setSelections this Hv Hp) as (s & Hs & ->).
      cbn [after _cursorStateStack _editor]. unfold _getCurrentState.
      cbn [_cursorStateHistory _positionInHistory]. rewrite Hs.
      by rewrite (readState_written _ s) by apply Hw.
Qed.

Lemma foldl_handle_tracks (setSelections : write_behaviour) (es : list event)
    (this : CursorUndoController) :
  writes_selections setSelections ->
  idle this ->
  _getCurrentState (_cursorStateStack this) = Some (_readState (_editor this)) ->
  let this' := foldl (fun this e => after (handle setSelections this e)) this es in
  _getCurrentState (_cursorStateStack this') = Some (_readState (_editor this')).
Proof.
  intros Hw. revert this. induction es as [|e es IH]; intros this Hidle Htrack; [done|].
  cbn [foldl]. apply IH.
  - by destruct (handle_idle setSelections this e Hidle) as (this' & -> & ?).
  - by apply handle_tracks.
Qed.

(** X10: when the editor's write does replace the selections, then in
    every execution of the controller the entry at the position pointer is
    the state read from the editor: the history knows where the cursor is,
    also after undo and redo commands. *)
Theorem position_tracks_editor (setSelections : write_behaviour)
    (editor : Editor) (es : list event) :
  writes_selections setSelections ->
  let this := execution setSelections editor es in
  _getCurrentState (_cursorStateStack this) = Some (_readState (_editor this)).
Proof.
  intros Hw. apply foldl_handle_tracks; [done| |done].
  split; [done|]. apply invariant_new.
Qed.

Lemma position_tracks_editor_witness :
  writes_selections notifying_write /\
  _getCurrentState (_cursorStateStack
    (execution notifying_write editor_without_model
       [model_changed editor_at_S1; selection_changed editor_at_S1; undo_command]))
  = Some (_readState (_editor
    (execution notifying_write editor_without_model
       [model_changed editor_at_S1; selection_changed editor_at_S1; undo_command]))).
Proof.
  assert (Hw : writes_selections notifying_write) by (intros editor sels; reflexivity).
  split; [exact Hw|].
  exact (position_tracks_editor notifying_write editor_without_model
           [model_changed editor_at_S1; selection_changed editor_at_S1; undo_command] Hw).
Defined.

(** ** The other stack classes *)

Section PopFacts.
Context {A : Type}.
Implicit Types (arr : list A).

Lemma pop_snoc arr x : JsArray.pop (arr ++ [x]) = (arr, Some x).
Proof.
  unfold JsArray.pop. rewrite length_app, last_snoc. cbn [length].
  f_equal. apply take_app_length'. lia.
Qed.

Lemma push_shift_bounded arr x :
  JsArray.length arr <= 50 ->
  JsArray.length
    (if decide (JsArray.length (JsArray.push arr x) > 50)
     then JsArray.shift (JsArray.push arr x) else JsArray.push arr x) <= 50.
Proof.
  intros Hlen. stack_cases; [|lia].
  rewrite length_push in *. unfold JsArray.length, JsArray.shift, JsArray.push in *.
  rewrite length_drop, length_app. cbn [length]. lia.
Qed.

(** pushing onto at most 50 entries, shifting beyond 50, then popping:
    the last 49 of the entries stay *)
Lemma push_shift_pop arr x :
  JsArray.length arr <= 50 ->
  JsArray.pop
    (if decide (JsArray.length (JsArray.push arr x) > 50)
     then JsArray.shift (JsArray.push arr x) else JsArray.push arr x)
  = (keep_last 49 arr, Some x).
Proof.
  intros Hlen. rewrite length_push.
  unfold JsArray.length, JsArray.shift, JsArray.push, keep_last in *.
  stack_cases.
  - destruct arr as [|a arr]; [simpl in *; lia|].
    replace (length (a :: arr) - 49)%nat with 1%nat by (simpl in *; lia).
    change (drop 1 ((a :: arr) ++ [x])) with (arr ++ [x]). by rewrite pop_snoc.
  - replace (length arr - 49)%nat with 0%nat by lia. by rewrite pop_snoc.
Qed.
End PopFacts.

Module HistoryTopFacts.
Import HistoryTop HistoryTopRuns.

Lemma top_invariant_new (s : CursorState) : invariant (new s).
Proof. split; [done|]. unfold JsArray.length. simpl. lia. Qed.

Lemma top_invariant_onStateUpdate (st : CursorStateStack) (s : CursorState) :
  invariant st -> invariant (onStateUpdate st s).
Proof.
  intros [Hne Hlen]. unfold invariant, onStateUpdate, STACK_SIZE_LIMIT.
  pose proof (push_shift_bounded (_cursorStateHistory st) s Hlen) as Hb.
  destruct (decide _) as [Hgt|Hle]; cbn [_cursorStateHistory]; (split; [|done]).
  - intros Hnil. rewrite length_push in Hgt.
    destruct (_cursorStateHistory st) as [|a [|b l]]; done.
  - unfold JsArray.push. by destruct (_cursorStateHistory st).
Qed.

(** what [undo] does, by the number of entries *)
Lemma top_undo_single (c : CursorState) :
  undo {| _cursorStateHistory := [c] |} = ({| _cursorStateHistory := [c] |}, null).
Proof. done. Qed.

Lemma top_undo_more (l : list CursorState) (t c : CursorState) :
  undo {| _cursorStateHistory := l ++ [t; c] |}
  = ({| _cursorStateHistory := l ++ [t] |}, state t).
Proof.
  unfold undo. cbn [_cursorStateHistory].
  destruct (decide _) as [Hone|_].
  - unfold JsArray.length in Hone. rewrite length_app in Hone. simpl in Hone. lia.
  - change (l ++ [t; c]) with (l ++ [t] ++ [c]). rewrite app_assoc, pop_snoc. cbn [fst].
    unfold _getCurrentState, JsArray.get, JsArray.length. cbn [_cursorStateHistory].
    rewrite length_app. cbn [length].
    destruct (decide _); [|lia].
    replace (Z.to_nat (Z.of_nat (length l + 1) - 1)) with (length l) by lia.
    by rewrite list_lookup_middle.
Qed.

Lemma top_invariant_undo (st : CursorStateStack) :
  invariant st -> invariant (fst (undo st)) /\ snd (undo st) <> undefined.
Proof.
  destruct st as [hist]. intros [Hne Hlen]. cbn [_cursorStateHistory] in *.
  destruct hist as [|c0 hist _] using rev_ind; [done|].
  destruct hist as [|t hist _] using rev_ind.
  - cbn [app]. by rewrite top_undo_single.
  - rewrite <- app_assoc. cbn [app]. rewrite top_undo_more. cbn [fst snd].
    split; [|done]. split.
    + cbn [_cursorStateHistory]. by destruct hist.
    + cbn [_cursorStateHistory]. unfold JsArray.length in *.
      rewrite !length_app in *. cbn [length] in *. lia.
Qed.

Lemma top_invariant_perform (st : CursorStateStack) (o : operation) :
  invariant st -> invariant (perform st o).
Proof.
  intros Hinv. destruct o; cbn [perform].
  - apply top_invariant_new.
  - by apply top_invariant_onStateUpdate.
  - by apply top_invariant_undo.
  - done.
Qed.

Lemma top_invariant_run (ops : list operation) (st : CursorStateStack) :
  invariant st -> invariant (run st ops).
Proof.
  revert st. induction ops as [|o ops IH]; intros st Hst; [done|].
  apply IH. by apply top_invariant_perform.
Qed.

(** X11: in the second file of cursorUndo.ts, whatever operations were
    performed on a stack since its construction, the history is non-empty
    and holds at most 50 entries, and the next [undo] returns [null] or a
    snapshot, never [undefined]. *)
Theorem top_history_bounded (initialState : CursorState) (ops : list operation) :
  let st := run (new initialState) ops in
  _cursorStateHistory st <> [] /\
  JsArray.length (_cursorStateHistory st) <= 50 /\
  snd (undo st) <> undefined.
Proof.
  pose proof (top_invariant_run ops _ (top_invariant_new initialState)) as Hinv.
  cbn zeta. destruct Hinv as [Hne Hlen].
  split; [done|]. split; [done|]. by apply top_invariant_undo.
Qed.

(** X12: in the second file of cursorUndo.ts, on a non-empty history of at
    most 50 entries, [undo] right after [onStateUpdate] returns the
    snapshot that was on top before and leaves the last 49 of the entries
    there were: the stack as it was when it held fewer than 50 entries,
    without its oldest entry when it held 50. *)
Theorem top_record_then_undo (st : CursorStateStack) (s : CursorState) :
  invariant st ->
  exists t,
    _getCurrentState st = Some t /\
    undo (onStateUpdate st s)
    = ({| _cursorStateHistory := keep_last 49 (_cursorStateHistory st) |}, state t) /\
    (JsArray.length (_cursorStateHistory st) < 50 -> undo (onStateUpdate st s) = (st, state t)).
Proof.
  destruct st as [hist]. intros [Hne Hlen]. cbn [_cursorStateHistory] in *.
  destruct hist as [|t hist _] using rev_ind; [done|].
  exists t.
  assert (Htop : _getCurrentState {| _cursorStateHistory := hist ++ [t] |} = Some t).
  { unfold _getCurrentState, JsArray.get, JsArray.length. cbn [_cursorStateHistory].
    rewrite length_app. cbn [length]. destruct (decide _); [|lia].
    replace (Z.to_nat (Z.of_nat (length hist + 1) - 1)) with (length hist) by lia.
    by rewrite list_lookup_middle. }
  assert (Hundo : undo (onStateUpdate {| _cursorStateHistory := hist ++ [t] |} s)
                  = ({| _cursorStateHistory := keep_last 49 (hist ++ [t]) |}, state t)).
  { unfold onStateUpdate, STACK_SIZE_LIMIT. cbn [_cursorStateHistory].
    rewrite length_push. unfold JsArray.length, JsArray.push, JsArray.shift, keep_last in *.
    rewrite length_app in *. cbn [length] in *.
    destruct (decide _) as [Hgt|Hle].
    - replace (length hist + 1 - 49)%nat with 1%nat by lia.
      destruct hist as [|a hist]; [simpl in *; lia|].
      change (drop 1 (((a :: hist) ++ [t]) ++ [s])) with ((hist ++ [t]) ++ [s]).
      change (drop 1 ((a :: hist) ++ [t])) with (hist ++ [t]).
      rewrite <- app_assoc. apply top_undo_more.
    - replace (length hist + 1 - 49)%nat with 0%nat by lia. rewrite drop_0.
      rewrite <- app_assoc. apply top_undo_more. }
  split; [done|]. split; [done|].
  intros Hlt. rewrite Hundo. rewrite keep_last_all; [done|].
  unfold JsArray.length in Hlt. lia.
Qed.

Lemma top_record_then_undo_witness :
  invariant top_stack /\
  JsArray.length (_cursorStateHistory top_stack) < 50 /\
  exists t,
    _getCurrentState top_stack = Some t /\
    undo (onStateUpdate top_stack S2) = (top_stack, state t).
Proof.
  assert (Hinv : invariant top_stack) by evaluated.
  assert (Hlt : JsArray.length (_cursorStateHistory top_stack) < 50) by evaluated.
  split; [exact Hinv|]. split; [exact Hlt|].
  destruct (top_record_then_undo top_stack S2 Hinv) as (t & Ht & _ & Hundo).
  exists t. split; [exact Ht | exact (Hundo Hlt)].
Defined.

End HistoryTopFacts.

Module UndoStackPrevFacts.
Import UndoStackPrev UndoStackPrevRuns.

Lemma prev_undo_empty (prev : option CursorState) :
  undo {| _undoStack := []; _prevState := prev |}
  = ({| _undoStack := []; _prevState := prev |}, null).
Proof. done. Qed.

Lemma prev_undo_snoc (l : list CursorState) (p : CursorState) (prev : option CursorState) :
  undo {| _undoStack := l ++ [p]; _prevState := prev |}
  = ({| _undoStack := l; _prevState := Some p |}, state p).
Proof.
  unfold undo. cbn [_undoStack].
  destruct (decide _) as [Hzero|_].
  - unfold JsArray.length in Hzero. rewrite length_app in Hzero. simpl in Hzero. lia.
  - by rewrite pop_snoc.
Qed.

Lemma prev_bounded_onStateUpdate (st : CursorStateStack) (s : option CursorState) :
  JsArray.length (_undoStack st) <= 50 ->
  JsArray.length (_undoStack (onStateUpdate st s)) <= 50.
Proof.
  intros Hlen. unfold onStateUpdate, STACK_SIZE_LIMIT. cbn [_undoStack].
  destruct (_prevState st); [|done]. by apply push_shift_bounded.
Qed.

Lemma prev_bounded_undo (st : CursorStateStack) :
  JsArray.length (_undoStack st) <= 50 ->
  JsArray.length (_undoStack (fst (undo st))) <= 50.
Proof.
  destruct st as [l prev]. cbn [_undoStack]. intros Hlen.
  destruct l as [|p l _] using rev_ind; [done|].
  rewrite prev_undo_snoc. cbn [fst _undoStack].
  unfold JsArray.length in *. rewrite length_app in Hlen. lia.
Qed.

Lemma prev_bounded_run (ops : list operation) (st : CursorStateStack) :
  JsArray.length (_undoStack st) <= 50 ->
  JsArray.length (_undoStack (run st ops)) <= 50.
Proof.
  revert st. induction ops as [|o ops IH]; intros st Hst; [done|].
  apply IH. destruct o; cbn [perform].
  - unfold JsArray.length. simpl. lia.
  - by apply prev_bounded_onStateUpdate.
  - by apply prev_bounded_undo.
  - done.
Qed.

(** X13: in part_000, [undo] right after [onStateUpdate], on a stack with
    a previous state [p] and at most 50 entries, returns [p], makes it the
    previous state again, and leaves the last 49 of the entries there
    were: the stack as it was when it held fewer than 50 entries, without
    its oldest entry when it held 50. *)
Theorem prev_record_then_undo (st : CursorStateStack) (p : CursorState)
    (newState : option CursorState) :
  _prevState st = Some p ->
  JsArray.length (_undoStack st) <= 50 ->
  undo (onStateUpdate st newState)
  = ({| _undoStack := keep_last 49 (_undoStack st); _prevState := Some p |}, state p) /\
  (JsArray.length (_undoStack st) < 50 -> undo (onStateUpdate st newState) = (st, state p)).
Proof.
  destruct st as [l prev]. cbn [_prevState _undoStack]. intros -> Hlen.
  assert (Hundo : undo (onStateUpdate {| _undoStack := l; _prevState := Some p |} newState)
                  = ({| _undoStack := keep_last 49 l; _prevState := Some p |}, state p)).
  { unfold onStateUpdate, undo, STACK_SIZE_LIMIT. cbn [_prevState _undoStack].
    rewrite push_shift_pop by done.
    destruct (decide _) as [Hzero|_]; [|done].
    exfalso. revert Hzero. rewrite length_push. unfold JsArray.length, JsArray.shift, JsArray.push.
    stack_cases; rewrite ?length_drop, length_app; cbn [length]; lia. }
  split; [done|].
  intros Hlt. rewrite Hundo, keep_last_all; [done|].
  unfold JsArray.length in Hlt. lia.
Qed.

Lemma prev_record_then_undo_witness :
  _prevState prev_stack = Some S2 /\
  JsArray.length (_undoStack prev_stack) <= 50 /\
  JsArray.length (_undoStack prev_stack) < 50 /\
  undo (onStateUpdate prev_stack (Some S0)) = (prev_stack, state S2).
Proof.
  assert (Hp : _prevState prev_stack = Some S2) by reflexivity.
  assert (Hle : JsArray.length (_undoStack prev_stack) <= 50) by evaluated.
  assert (Hlt : JsArray.length (_undoStack prev_stack) < 50) by evaluated.
  split; [exact Hp|]. split; [exact Hle|]. split; [exact Hlt|].
  exact (proj2 (prev_record_then_undo prev_stack S2 (Some S0) Hp Hle) Hlt).
Defined.

Lemma prev_undo_repeatedly_empty (n : nat) (prev : option CursorState) :
  undo_repeatedly n {| _undoStack := []; _prevState := prev |} = replicate n null.
Proof.
  induction n as [|n IH]; [done|].
  cbn [undo_repeatedly]. by rewrite prev_undo_empty, IH.
Qed.

(** X14: in part_000, calling [undo] again and again returns the entries
    of the undo stack from the newest to the oldest, one per call, and
    [null] from then on. *)
Theorem prev_undo_until_exhausted (l : list CursorState) (prev : option CursorState) (n : nat) :
  undo_repeatedly (length l + n) {| _undoStack := l; _prevState := prev |}
  = (state <$> reverse l) ++ replicate n null.
Proof.
  revert prev. induction l as [|p l IH] using rev_ind; intros prev.
  - apply prev_undo_repeatedly_empty.
  - rewrite length_app, reverse_snoc. cbn [length].
    replace (length l + 1 + n)%nat with (S (length l + n)) by lia.
    cbn [undo_repeatedly]. rewrite prev_undo_snoc. by rewrite IH.
Qed.

(** X15: in part_000, whatever operations were performed on a stack since
    its construction, the undo stack holds at most 50 entries. *)
Theorem prev_stack_bounded (initialState : option CursorState) (ops : list operation) :
  JsArray.length (_undoStack (run (new initialState) ops)) <= 50.
Proof. apply prev_bounded_run. unfold JsArray.length. simpl. lia. Qed.

(** X16: in part_000, [reset] forgets the state the editor is in: after a
    model or content change the first cursor move pushes nothing, and the
    soft-undo command that follows returns with the controller as it is.
    A stack constructed with a state does remember it. *)
Theorem prev_first_move_after_reset (setSelections : write_behaviour)
    (this : CursorUndoController) (editor : Editor)
    (initialState : CursorState) (newState : option CursorState) :
  (let this' := onDidChangeCursorSelection (with_editor (onDidChangeModelContent this) editor) in
   _undoStack (_cursorStateStack this') = [] /\
   cursorUndo setSelections this' = returns this') /\
  (let this' := onDidChangeCursorSelection (with_editor (onDidChangeModel this) editor) in
   _undoStack (_cursorStateStack this') = [] /\
   cursorUndo setSelections this' = returns this') /\
  snd (undo (onStateUpdate (new (Some initialState)) newState)) = state initialState.
Proof. by destruct this as [ed [] st]. Qed.

End UndoStackPrevFacts.

Module UndoStackSkipEqualFacts.
Import UndoStackSkipEqual UndoStackSkipEqualRuns.

Lemma all_equal_snoc (currState : CursorState) (l : list CursorState) (e : CursorState) :
  all_equal currState (l ++ [e]) = all_equal currState l && CursorState_equals e currState.
Proof. unfold all_equal. rewrite forallb_app. cbn [forallb]. by rewrite andb_true_r. Qed.

(** the loop, run for more rounds than there are entries *)
Lemma undo_loop_spec (l : list CursorState) (n : nat) (prev : option CursorState)
    (currState : CursorState) :
  (length l < n)%nat ->
  match undo_loop n {| _undoStack := l; _prevState := prev |} currState with
  | (st', null) =>
      _undoStack st' = [] /\ _prevState st' = prev /\ all_equal currState l = true
  | (st', state s) =>
      CursorState_equals s currState = false /\
      _prevState st' = Some s /\
      exists above, l = _undoStack st' ++ s :: above /\ all_equal currState above = true
  | (_, undefined) => False
  end.
Proof.
  revert n. induction l as [|e l IH] using rev_ind; intros n Hn.
  - destruct n as [|n]; [lia|]. done.
  - destruct n as [|n]; [lia|].
    cbn [undo_loop _undoStack _prevState]. rewrite pop_snoc.
    destruct (CursorState_equals e currState) eqn:Heq; cbn [negb].
    + rewrite length_app in Hn. cbn [length] in Hn.
      specialize (IH n ltac:(lia)).
      destruct (undo_loop n _ currState) as [st' [| |s]]; [|done|].
      * destruct IH as (? & ? & Hall). rewrite all_equal_snoc, Hall, Heq. done.
      * destruct IH as (? & ? & above & -> & Hall).
        split; [done|]. split; [done|].
        exists (above ++ [e]). split.
        -- by rewrite <- app_assoc.
        -- by rewrite all_equal_snoc, Hall, Heq.
    + split; [done|]. split; [done|]. by exists [].
Qed.

(** X17: in the first file of cursorUndo.ts, [undo] returns [null] or an
    entry of the undo stack, never [undefined].  An entry it returns is
    not equal to the current state and becomes the previous state; the
    entries above it were all equal to the current state, and they are
    popped with it.  When it returns [null], every entry was equal to the
    current state and the undo stack is left empty. *)
Theorem skip_undo_result (st : CursorStateStack) (currState : CursorState) :
  match undo st currState with
  | (st', null) =>
      _undoStack st' = [] /\ _prevState st' = _prevState st /\
      all_equal currState (_undoStack st) = true
  | (st', state s) =>
      CursorState_equals s currState = false /\
      _prevState st' = Some s /\
      exists above,
        _undoStack st = _undoStack st' ++ s :: above /\ all_equal currState above = true
  | (_, undefined) => False
  end.
Proof. destruct st as [l prev]. apply undo_loop_spec. cbn. lia. Qed.

(** X18: in the first file of cursorUndo.ts, when the newest entry of the
    undo stack is not equal to the current state, [undo] pops just that
    entry, makes it the previous state and returns it: what [undo] of
    part_000 does on the same stack. *)
Theorem skip_undo_top_differs (l : list CursorState) (e : CursorState)
    (prev : option CursorState) (currState : CursorState) :
  CursorState_equals e currState = false ->
  undo {| _undoStack := l ++ [e]; _prevState := prev |} currState
  = ({| _undoStack := l; _prevState := Some e |}, state e) /\
  UndoStackPrev.undo {| UndoStackPrev._undoStack := l ++ [e]; UndoStackPrev._prevState := prev |}
  = ({| UndoStackPrev._undoStack := l; UndoStackPrev._prevState := Some e |}, state e).
Proof.
  intros Hne. split.
  - unfold undo. cbn [_undoStack undo_loop _prevState]. by rewrite pop_snoc, Hne.
  - apply UndoStackPrevFacts.prev_undo_snoc.
Qed.

Lemma skip_undo_top_differs_witness :
  CursorState_equals S1 S2 = false /\
  undo {| _undoStack := [S0] ++ [S1]; _prevState := Some S2 |} S2
  = ({| _undoStack := [S0]; _prevState := Some S1 |}, state S1).
Proof.
  assert (Hne : CursorState_equals S1 S2 = false) by reflexivity.
  split; [exact Hne|].
  exact (proj1 (skip_undo_top_differs [S0] S1 (Some S2) S2 Hne)).
Defined.

Lemma skip_bounded_undo (st : CursorStateStack) (currState : CursorState) :
  JsArray.length (_undoStack st) <= 50 ->
  JsArray.length (_undoStack (fst (undo st currState))) <= 50.
Proof.
  intros Hlen. pose proof (skip_undo_result st currState) as Hres.
  destruct (undo st currState) as [st' [| |s]]; cbn [fst]; [|done|].
  - destruct Hres as (-> & _). unfold JsArray.length. simpl. lia.
  - destruct Hres as (_ & _ & above & Heq & _).
    unfold JsArray.length in *. rewrite Heq, length_app in Hlen. lia.
Qed.

Lemma skip_bounded_run (ops : list operation) (st : CursorStateStack) :
  JsArray.length (_undoStack st) <= 50 ->
  JsArray.length (_undoStack (run st ops)) <= 50.
Proof.
  revert st. induction ops as [|o ops IH]; intros st Hst; [done|].
  apply IH. destruct o; cbn [perform].
  - unfold JsArray.length. simpl. lia.
  - unfold onStateUpdate, STACK_SIZE_LIMIT. cbn [_undoStack].
    destruct (_prevState st); [|done]. by apply push_shift_bounded.
  - by apply skip_bounded_undo.
  - done.
Qed.

(** X19: in the first file of cursorUndo.ts, whatever operations were
    performed on a stack since its construction (with whatever current
    states [undo] was given), the undo stack holds at most 50 entries. *)
Theorem skip_stack_bounded (initialState : option CursorState) (ops : list operation) :
  JsArray.length (_undoStack (run (new initialState) ops)) <= 50.
Proof. apply skip_bounded_run. unfold JsArray.length. simpl. lia. Qed.

(** X20: in the first file of cursorUndo.ts, while the editor has no model
    both commands return with the controller as it is: the stack is not
    even asked, so nothing is popped. *)
Theorem skip_commands_without_model (setSelections : write_behaviour)
    (this : CursorUndoController) :
  hasModel (_editor this) = false ->
  cursorUndo setSelections this = returns this /\
  cursorRedo setSelections this = returns this.
Proof.
  intros Hno. unfold cursorUndo, cursorRedo, _updateCursorState_with, _readState.
  by rewrite Hno.
Qed.

Lemma skip_commands_without_model_witness :
  hasModel editor_without_model = false /\
  cursorUndo notifying_write
    {| _editor := editor_without_model; _isChangingState := false;
       _cursorStateStack := skip_stack |}
  = returns {| _editor := editor_without_model; _isChangingState := false;
               _cursorStateStack := skip_stack |}.
Proof.
  assert (Hno : hasModel editor_without_model = false) by reflexivity.
  split; [exact Hno|].
  exact (proj1 (skip_commands_without_model notifying_write
    {| _editor := editor_without_model; _isChangingState := false;
       _cursorStateStack := skip_stack |} Hno)).
Defined.

(** X21: in the first file of cursorUndo.ts, [reset] forgets the state
    the editor is in: after a model or content change the first cursor
    move pushes nothing, and the soft-undo command that follows returns
    with the controller as it is. *)
Theorem skip_first_move_after_reset (setSelections : write_behaviour)
    (this : CursorUndoController) (editor : Editor) :
  (let this' := onDidChangeCursorSelection (with_editor (onDidChangeModelContent this) editor) in
   _undoStack (_cursorStateStack this') = [] /\
   cursorUndo setSelections this' = returns this') /\
  (let this' := onDidChangeCursorSelection (with_editor (onDidChangeModel this) editor) in
   _undoStack (_cursorStateStack this') = [] /\
   cursorUndo setSelections this' = returns this').
Proof.
  destruct this as [ed [] st]; cbn;
    unfold cursorUndo, _updateCursorState_with; cbn;
    by destruct (_readState editor).
Qed.

End UndoStackSkipEqualFacts.

(** ** The guard of the listener, for any stack class *)

Section GuardedListener.
Context {Stack : Type}.
Variable setSelections : write_behaviour.
Variable listener : Controller Stack -> Controller Stack.
Hypothesis listener_guarded :
  forall this, _isChangingState this = true -> listener this = this.

Lemma deliver_guarded (fired : list Editor) (this : Controller Stack) :
  _isChangingState this = true ->
  _cursorStateStack (deliver listener this fired) = _cursorStateStack this /\
  _isChangingState (deliver listener this fired) = true.
Proof.
  revert this. induction fired as [|editor fired IH]; intros this Hflag; [done|].
  unfold deliver in *. cbn [foldl].
  rewrite listener_guarded by done.
  by destruct (IH (with_editor this editor) Hflag) as [-> ->].
Qed.

Lemma updateCursorState_guarded (this : Controller Stack) (r : returned) :
  _cursorStateStack (after (_updateCursorState setSelections listener this r))
  = _cursorStateStack this.
Proof.
  destruct r as [| |s]; [done|done|].
  unfold _updateCursorState. cbn [with_isChangingState _editor].
  destruct (setSelections (_editor this) (selections s)) as [fired editor].
  unfold with_editor, with_isChangingState. cbn.
  by destruct (deliver_guarded fired
    {| _editor := _editor this; _isChangingState := true;
       _cursorStateStack := _cursorStateStack this |} eq_refl) as [-> _].
Qed.
End GuardedListener.

(** X22: in the three earlier variants too, a selection-changed
    notification that arrives while the flag is set is dropped, so that
    whatever the editor notifies during the write of [cursorUndo], the
    stack afterwards is the one [undo] left.  In the first file of
    cursorUndo.ts that is [undo] on the state read from the editor, and
    without a model the command returns with the controller as it is. *)
Theorem variants_guard (setSelections : write_behaviour)
    (a : UndoStackSkipEqual.CursorUndoController)
    (b : HistoryTop.CursorUndoController)
    (c : UndoStackPrev.CursorUndoController) :
  (UndoStackSkipEqual.onDidChangeCursorSelection (with_isChangingState a true)
     = with_isChangingState a true /\
   match UndoStackSkipEqual._readState (_editor a) with
   | Some currState =>
       _cursorStateStack (after (UndoStackSkipEqual.cursorUndo setSelections a))
       = fst (UndoStackSkipEqual.undo (_cursorStateStack a) currState)
   | None => UndoStackSkipEqual.cursorUndo setSelections a = returns a
   end) /\
  (HistoryTop.onDidChangeCursorSelection (with_isChangingState b true)
     = with_isChangingState b true /\
   _cursorStateStack (after (HistoryTop.cursorUndo setSelections b))
   = fst (HistoryTop.undo (_cursorStateStack b))) /\
  (UndoStackPrev.onDidChangeCursorSelection (with_isChangingState c true)
     = with_isChangingState c true /\
   _cursorStateStack (after (UndoStackPrev.cursorUndo setSelections c))
   = fst (UndoStackPrev.undo (_cursorStateStack c))).
Proof.
  split; [|split]; (split; [done|]).
  - unfold UndoStackSkipEqual.cursorUndo, UndoStackSkipEqual._updateCursorState_with.
    destruct (UndoStackSkipEqual._readState (_editor a)) as [currState|]; [|done].
    destruct (UndoStackSkipEqual.undo _ currState) as [stack r].
    rewrite updateCursorState_guarded; [done|].
    intros this Hflag. unfold UndoStackSkipEqual.onDidChangeCursorSelection. by rewrite Hflag.
  - unfold HistoryTop.cursorUndo.
    destruct (HistoryTop.undo _) as [stack r].
    rewrite updateCursorState_guarded; [done|].
    intros this Hflag. unfold HistoryTop.onDidChangeCursorSelection. by rewrite Hflag.
  - unfold UndoStackPrev.cursorUndo.
    destruct (UndoStackPrev.undo _) as [stack r].
    rewrite updateCursorState_guarded; [done|].
    intros this Hflag. unfold UndoStackPrev.onDidChangeCursorSelection. by rewrite Hflag.
Qed.

(** X23: in the second file of cursorUndo.ts, right after a model change
    or a content change both commands return with the controller as it
    is, whatever the history held. *)
Theorem top_change_erases_history (setSelections : write_behaviour)
    (this : HistoryTop.CursorUndoController) :
  (HistoryTop.cursorUndo setSelections (HistoryTop.onDidChangeModel this)
     = returns (HistoryTop.onDidChangeModel this) /\
   HistoryTop.cursorRedo setSelections (HistoryTop.onDidChangeModel this)
     = returns (HistoryTop.onDidChangeModel this)) /\
  (HistoryTop.cursorUndo setSelections (HistoryTop.onDidChangeModelContent this)
     = returns (HistoryTop.onDidChangeModelContent this) /\
   HistoryTop.cursorRedo setSelections (HistoryTop.onDidChangeModelContent this)
     = returns (HistoryTop.onDidChangeModelContent this)).
Proof. by destruct this. Qed.

(** ** Equality of snapshots *)

Lemma equalsPosition_iff (a b : Position) : equalsPosition a b = true <-> a = b.
Proof.
  destruct a as [l1 c1], b as [l2 c2]. unfold equalsPosition. cbn.
  rewrite andb_true_iff, !bool_decide_eq_true. split.
  - by intros [-> ->].
  - by intros [= -> ->].
Qed.

Lemma equalsSelection_iff (a b : Selection) : equalsSelection a b = true <-> a = b.
Proof.
  destruct a as [a1 h1], b as [a2 h2]. unfold equalsSelection. cbn.
  rewrite andb_true_iff, !equalsPosition_iff. split.
  - by intros [-> ->].
  - by intros [= -> ->].
Qed.

Lemma arrays_equals_iff {A} (itemEquals : A -> A -> bool) (one other : list A) :
  (forall a b, itemEquals a b = true <-> a = b) ->
  arrays_equals itemEquals one other = true <-> one = other.
Proof.
  intros Hitem. revert other. induction one as [|a one IH]; intros [|b other]; cbn; try done.
  rewrite andb_true_iff, Hitem, IH. split.
  - by intros [-> ->].
  - by intros [= -> ->].
Qed.

(** X24: [CursorState.equals] holds exactly of two snapshots with the same
    selections in the same order (with [Selection.equalsSelection] and
    [equals] of vs/base/common/arrays, which the sources import, as the
    specification describes them); in particular snapshots with different
    numbers of selections are not equal. *)
Theorem CursorState_equals_iff (this other : CursorState) :
  (CursorState_equals this other = true <-> this = other) /\
  (length (selections this) <> length (selections other) ->
   CursorState_equals this other = false).
Proof.
  assert (Hiff : CursorState_equals this other = true <-> this = other).
  { destruct this as [sels1], other as [sels2]. unfold CursorState_equals. cbn.
    rewrite (arrays_equals_iff _ _ _ equalsSelection_iff). split.
    - by intros ->.
    - by intros [= ->]. }
  split; [done|].
  intros Hlen. apply not_true_is_false. intros Heq.
  apply Hiff in Heq. by subst.
Qed.

Lemma CursorState_equals_iff_witness :
  length (selections S0) <> length (selections (Build_CursorState [])) /\
  CursorState_equals S0 (Build_CursorState []) = false.
Proof.
  assert (Hlen : length (selections S0) <> length (selections (Build_CursorState [])))
    by evaluated.
  split; [exact Hlen|].
  exact (proj2 (CursorState_equals_iff S0 (Build_CursorState [])) Hlen).
Defined.
